(** * ChipIn: group expense sharing

    A shallow embedding of the models of [users/models.py] and of the
    request handlers of [chipin/views.py], with the properties of events,
    profiles and comments proved about them.

    Conventions of the embedding:
    - a [Decimal] is a rational number of [Q], compared by [Qlt_bool a b]
      for [a < b] and [Qle_bool b a] for [a >= b]; a quotient is rounded to
      the 28 significant digits of the decimal context, and an amount is
      stored with the two places of its field, both with ties to even;
    - a primary key is a [positive] (keys are handed out from 1), and the key
      of a row is its key in the table;
    - a many-to-many field is a table from the owning row's key to the set of
      user keys related to it;
    - a handler is a function of the database that gives the database after
      the request, the flash messages it queued, and either its response or
      the exception that ended it. *)

From Stdlib Require Import QArith Qabs Qround Qpower Lqa.
From stdpp Require Import gmap strings list fin_maps fin_sets.

Close Scope Q_scope.

(** ** Decimals *)

Definition Qlt_bool (x y : Q) : bool :=
  (Qnum x * QDen y <? Qnum y * QDen x)%Z.

(** [y] to the nearest integer, a tie going to the even one
    ([ROUND_HALF_EVEN], the rounding of the decimal context). *)
Definition round_half_even (y : Q) : Z :=
  let f := Qfloor y in
  match (y - inject_Z f ?= 1 # 2)%Q with
  | Lt => f
  | Gt => (f + 1)%Z
  | Eq => if Z.even f then f else (f + 1)%Z
  end.

(** [x.quantize(Decimal(1).scaleb(-places))]: [x] rounded to a multiple of
    [10 ^ -places]. *)
Definition quantize (x : Q) (places : Z) : Q :=
  Qred (inject_Z (round_half_even (x * 10 ^ places)) * 10 ^ (- places))%Q.

(** The number of decimal digits of a positive integer. *)
Fixpoint digits_upto (fuel : nat) (a : Z) : Z :=
  match fuel with
  | O => 1%Z
  | S fuel' => if (a <? 10)%Z then 1%Z else (1 + digits_upto fuel' (a / 10))%Z
  end.

Definition digits (a : Z) : Z := digits_upto (Z.to_nat (Z.log2 a)) a.

(** The exponent of the leading digit of [q], which is not 0: the [e] with
    [10 ^ e <= |q| < 10 ^ (e + 1)]. *)
Definition adjusted (q : Q) : Z :=
  let k := (digits (Z.abs (Qnum q)) - digits (QDen q))%Z in
  if Qle_bool (10 ^ k) (Qabs q) then k else (k - 1)%Z.

(** The precision of the decimal context. *)
Definition prec : Z := 28.

(** [x / n] for a [Decimal] [x] and an [int] [n] that is not 0: the quotient
    rounded to [prec] significant digits. *)
Definition Decimal_truediv (x : Q) (n : Z) : Q :=
  let q := (x / inject_Z n)%Q in
  if Qeq_bool q 0 then 0%Q else quantize q (prec - 1 - adjusted q).

(** ** Rows (users/models.py) *)

Record Profile := mkProfile {
  profile_user : positive;
  first_name : string;
  surname : string;
  nickname : string;
  max_spend : Q;
  balance : Q
}.

(** Modelled from the spec: the [admin] field of [Group], which the handlers
    read and [chipin/models.py] declares: "admin (one User)". *)
Record Group := mkGroup {
  group_name : string;
  admin : positive
}.

Record Event := mkEvent {
  name : string;
  date : string;
  total_spend : Q;
  status : string;
  group : positive
}.

(** Modelled from the spec: [Comment], declared in [chipin/models.py]: a text
    that "belongs to one Group, authored by one User". *)
Record Comment := mkComment {
  comment_user : positive;
  comment_group : positive;
  content : string
}.

(** ** The database *)

Record DB := mkDB {
  profiles : gmap positive Profile;
  groups : gmap positive Group;
  group_members : gmap positive (gset positive);
  events : gmap positive Event;
  event_members : gmap positive (gset positive);
  comments : gmap positive Comment
}.

(** [owner.members.all()] as a set: the users related to row [k]. *)
Definition members_of (t : gmap positive (gset positive)) (k : positive) : gset positive :=
  default ∅ (t !! k).

(** [user.profile]: the profile row whose one-to-one field is [u]. *)
Definition profile_of (db : DB) (u : positive) : option Profile :=
  (λ r, r.2.2) <$> list_find (λ kp, profile_user kp.2 = u) (map_to_list (profiles db)).

(** ** Exceptions *)

Inductive Exn :=
  | Http404
  | RelatedObjectDoesNotExist
  | ValidationError
  | IntegrityError.

Inductive result (A : Type) :=
  | Ok (a : A)
  | Raise (e : Exn).
Arguments Ok {A} a.
Arguments Raise {A} e.

(** ** Event (users/models.py) *)

Definition set_status (s : string) (self : Event) : Event :=
  {| name := name self; date := date self; total_spend := total_spend self;
     status := s; group := group self |}.

Definition calculate_share (db : DB) (self : Event) : Q :=
  let members_count := size (members_of (group_members db) (group self)) in
  if decide (members_count = 0) then 0%Q
  else Decimal_truediv (total_spend self) (Z.of_nat members_count).

(** The loop of [check_status] over [self.group.members.all()]. *)
Fixpoint check_status_loop (db : DB) (share : Q) (self : Event)
    (members : list positive) : result bool * Event :=
  match members with
  | [] => (Ok true, set_status "Active" self)
  | member :: rest =>
      match profile_of db member with
      | None => (Raise RelatedObjectDoesNotExist, self)
      | Some p =>
          if Qlt_bool (max_spend p) share
          then (Ok false, set_status "Pending" self)
          else check_status_loop db share self rest
      end
  end.

(** [check_status] gives what it returns (or raises) and [self] afterwards. *)
Definition check_status (db : DB) (self : Event) : result bool * Event :=
  let share := calculate_share db self in
  check_status_loop db share self
    (elements (members_of (group_members db) (group self))).

(** ** Profile (users/models.py) *)

(** [qs.exists()] on a query set. *)
Definition qs_exists {A} (qs : gmap positive A) : bool :=
  negb (bool_decide (size qs = 0)).

(** [Profile.objects.filter(nickname=self.nickname).exclude(pk=self.pk)];
    [pk] is [None] for a profile that was never saved. *)
Definition same_nickname_others (db : DB) (pk : option positive) (self : Profile)
    : gmap positive Profile :=
  filter (λ kp, Some kp.1 ≠ pk)
    (filter (λ kp, nickname kp.2 = nickname self) (profiles db)).

Definition Profile_clean (db : DB) (pk : option positive) (self : Profile) : result unit :=
  if qs_exists (same_nickname_others db pk self)
  then Raise ValidationError
  else Ok tt.

Definition set_profiles (f : gmap positive Profile → gmap positive Profile) (db : DB) : DB :=
  mkDB (f (profiles db)) (groups db) (group_members db) (events db)
       (event_members db) (comments db).

(** The row of a profile: [max_spend] and [balance] are written with the two
    places of [DecimalField(max_digits=10, decimal_places=2)]. *)
Definition to_row (self : Profile) : Profile :=
  mkProfile (profile_user self) (first_name self) (surname self) (nickname self)
    (quantize (max_spend self) 2) (quantize (balance self) 2).

(** The rows under another key than [k] that hold the user of [self]: with
    one of them, the one-to-one field [user] refuses the write of [self]
    under [k]. *)
Definition same_user_others (db : DB) (k : positive) (self : Profile)
    : gmap positive Profile :=
  filter (λ kp, kp.1 ≠ k)
    (filter (λ kp, profile_user kp.2 = profile_user self) (profiles db)).

(** [super().save()]: the row is written under its key, a new key being
    taken for a profile that has none; the table refuses a second profile
    of one user. (Its other unique column, [nickname], was checked by
    [clean].) *)
Definition Model_save_profile (pk : option positive) (self : Profile) (db : DB)
    : DB * result unit :=
  let k := match pk with
           | Some k => k
           | None => fresh (dom (profiles db))
           end in
  if qs_exists (same_user_others db k self)
  then (db, Raise IntegrityError)
  else (set_profiles (<[k := to_row self]>) db, Ok tt).

(** [Profile.save]: the database afterwards and how the call ended. *)
Definition Profile_save (pk : option positive) (self : Profile) (db : DB) : DB * result unit :=
  match Profile_clean db pk self with
  | Raise e => (db, Raise e)
  | Ok _ => Model_save_profile pk self db
  end.

(** ** Requests, messages and responses (chipin/views.py) *)

Inductive Method := GET | POST.

(** A value of [request.POST] that a model field converts when the row is
    written: the key may be missing, or its text may not convert. *)
Inductive Field (A : Type) :=
  | missing
  | ill_formed
  | value (a : A).
Arguments missing {A}.
Arguments ill_formed {A}.
Arguments value {A} a.

(** [request.POST] is read through the fields the handlers use.
    [post_comment] is the cleaned content of [CommentForm(request.POST)] when
    [form.is_valid()], and [None] when the form is not valid. *)
Record Request := mkRequest {
  user : option positive;
  method : Method;
  post_name : option string;
  post_date : Field string;
  post_total_spend : Field Q;
  post_comment : option string
}.

Inductive Level := level_info | level_success | level_warning | level_error.

(** The flash messages of the handlers, by their text. *)
Inductive Message :=
  | only_admin_can_create
  | only_admin_can_update
  | only_admin_can_delete
  | event_created (event_name : option string)
  | max_spend_too_low (spend : Q)
  | already_joined
  | joined_event (event_name : string)
  | event_now_active (event_name : string)
  | event_remains_pending (event_name : string)
  | not_a_member
  | left_event (event_name : string)
  | event_deleted (event_name : string).

Definition level (m : Message) : Level :=
  match m with
  | only_admin_can_create | only_admin_can_update | only_admin_can_delete
  | max_spend_too_low _ | not_a_member => level_error
  | already_joined => level_info
  | event_remains_pending _ => level_warning
  | event_created _ | joined_event _ | event_now_active _
  | left_event _ | event_deleted _ => level_success
  end.

(** One entry of [event_share_info]. *)
Record ShareInfo := mkShareInfo {
  info_share : Q;
  info_eligible : bool;
  info_status : string;
  info_joined : bool
}.

Inductive Response :=
  | redirect_login
  | redirect_group_detail (group_id : positive)
  | render_create_event (group_id : positive)
  | render_group_detail (group_id : positive) (comment_to_edit : option positive)
      (event_share_info : list (positive * ShareInfo)).

(** ** Handlers as state transformers *)

Definition M (A : Type) : Type := DB → DB * list Message * result A.

Definition ret {A} (a : A) : M A := λ db, (db, [], Ok a).

Definition raise {A} (e : Exn) : M A := λ db, (db, [], Raise e).

Definition bind {A B} (m : M A) (k : A → M B) : M B := λ db,
  match m db with
  | (db', ms, Ok a) =>
      match k a db' with
      | (db'', ms', r) => (db'', ms ++ ms', r)
      end
  | (db', ms, Raise e) => (db', ms, Raise e)
  end.

Notation "x <- m ; k" := (bind m (λ x, k))
  (at level 20, m at level 100, k at level 200, only parsing).
Notation "'_' <- m ; k" := (bind m (λ _, k))
  (at level 20, m at level 100, k at level 200, only parsing).

Definition lift {A} (r : result A) : M A := λ db, (db, [], r).

Definition read {A} (f : DB → A) : M A := λ db, (db, [], Ok (f db)).

Definition write (f : DB → DB) : M unit := λ db, (f db, [], Ok tt).

Definition messages_add (m : Message) : M unit := λ db, (db, [m], Ok tt).

(** [@login_required]: an anonymous request is sent to the login page. *)
Definition login_required (request : Request) (view : positive → M Response) : M Response :=
  match user request with
  | None => ret redirect_login
  | Some u => view u
  end.

Definition get_object_or_404 {A} (table : DB → gmap positive A) (id : positive) : M A :=
  row <- read (λ db, table db !! id) ;
  match row with
  | Some a => ret a
  | None => raise Http404
  end.

(** [get_object_or_404(Event, id=event_id, group=group)]. *)
Definition get_event_or_404 (event_id group_id : positive) : M Event :=
  row <- read (λ db, events db !! event_id) ;
  match row with
  | Some e => if decide (group e = group_id) then ret e else raise Http404
  | None => raise Http404
  end.

(** [user.profile], which raises when the user has no profile. *)
Definition get_profile (u : positive) : M Profile :=
  row <- read (λ db, profile_of db u) ;
  match row with
  | Some p => ret p
  | None => raise RelatedObjectDoesNotExist
  end.

Definition set_events (f : gmap positive Event → gmap positive Event) (db : DB) : DB :=
  mkDB (profiles db) (groups db) (group_members db) (f (events db))
       (event_members db) (comments db).

Definition set_event_members
    (f : gmap positive (gset positive) → gmap positive (gset positive)) (db : DB) : DB :=
  mkDB (profiles db) (groups db) (group_members db) (events db)
       (f (event_members db)) (comments db).

Definition set_comments (f : gmap positive Comment → gmap positive Comment) (db : DB) : DB :=
  mkDB (profiles db) (groups db) (group_members db) (events db)
       (event_members db) (f (comments db)).

(** [event.members.add(u)] and [event.members.remove(u)]. *)
Definition members_add (event_id u : positive) (db : DB) : DB :=
  set_event_members (λ t, <[event_id := members_of t event_id ∪ {[u]}]> t) db.

Definition members_remove (event_id u : positive) (db : DB) : DB :=
  set_event_members (λ t, <[event_id := members_of t event_id ∖ {[u]}]> t) db.

(** [event.save()]. *)
Definition Event_save (event_id : positive) (event : Event) (db : DB) : DB :=
  set_events (<[event_id := event]>) db.

(** [event.delete()]: the row and, by cascade, its membership rows. *)
Definition Event_delete (event_id : positive) (db : DB) : DB :=
  set_event_members (delete event_id) (set_events (delete event_id) db).

(** [Event.objects.create(name=.., date=.., total_spend=.., group=group)];
    [status] takes its default. A text that does not convert raises a
    validation error before the row is written; a missing value is refused
    by the table. *)
Definition Event_create (event_name : option string) (event_date : Field string)
    (spend : Field Q) (group_id : positive) : M unit :=
  match event_date, spend, event_name with
  | ill_formed, _, _ | _, ill_formed, _ => raise ValidationError
  | value d, value t, Some n =>
      write (λ db, set_events (<[fresh (dom (events db)) := mkEvent n d t "Pending" group_id]>) db)
  | _, _, _ => raise IntegrityError
  end.

(** [event.check_status()] inside a handler. *)
Definition do_check_status (event : Event) : M Event :=
  r <- read (λ db, check_status db event) ;
  match r.1 with
  | Ok _ => ret r.2
  | Raise e => raise e
  end.

(** ** The handlers (chipin/views.py) *)

Definition create_event (request : Request) (group_id : positive) : M Response :=
  login_required request (λ request_user,
    group <- get_object_or_404 groups group_id;
    if decide (request_user ≠ admin group) then
      _ <- messages_add only_admin_can_create;
      ret (redirect_group_detail group_id)
    else
      match method request with
      | POST =>
          _ <- Event_create (post_name request) (post_date request)
                 (post_total_spend request) group_id;
          _ <- messages_add (event_created (post_name request));
          ret (redirect_group_detail group_id)
      | GET => ret (render_create_event group_id)
      end).

Definition join_event (request : Request) (group_id event_id : positive) : M Response :=
  login_required request (λ request_user,
    group <- get_object_or_404 groups group_id;
    event <- get_event_or_404 event_id group_id;
    event_share <- read (λ db, calculate_share db event);
    profile <- get_profile request_user;
    if Qlt_bool (max_spend profile) event_share then
      _ <- messages_add (max_spend_too_low (max_spend profile));
      ret (redirect_group_detail group_id)
    else
      joined <- read (λ db, bool_decide (request_user ∈ members_of (event_members db) event_id));
      if joined then
        _ <- messages_add already_joined;
        ret (redirect_group_detail group_id)
      else
        _ <- write (members_add event_id request_user);
        _ <- messages_add (joined_event (name event));
        event' <- do_check_status event;
        _ <- write (Event_save event_id event');
        ret (redirect_group_detail group_id)).

(** [all(member.profile.max_spend >= event_share for member in members)]. *)
Fixpoint all_can_cover (db : DB) (event_share : Q) (members : list positive) : result bool :=
  match members with
  | [] => Ok true
  | member :: rest =>
      match profile_of db member with
      | None => Raise RelatedObjectDoesNotExist
      | Some p =>
          if Qle_bool event_share (max_spend p)
          then all_can_cover db event_share rest
          else Ok false
      end
  end.

Definition update_event_status (request : Request) (group_id event_id : positive)
    : M Response :=
  login_required request (λ request_user,
    group <- get_object_or_404 groups group_id;
    event <- get_event_or_404 event_id group_id;
    if decide (request_user ≠ admin group) then
      _ <- messages_add only_admin_can_update;
      ret (redirect_group_detail group_id)
    else
      event_share <- read (λ db, calculate_share db event);
      covered <- read (λ db, all_can_cover db event_share
                               (elements (members_of (group_members db) group_id)));
      sufficient_funds <- lift covered;
      event' <- (if (sufficient_funds : bool) then
                   _ <- messages_add (event_now_active (name event));
                   ret (set_status "Active" event)
                 else
                   _ <- messages_add (event_remains_pending (name event));
                   ret (set_status "Pending" event));
      _ <- write (Event_save event_id event');
      ret (redirect_group_detail group_id)).

Definition leave_event (request : Request) (group_id event_id : positive) : M Response :=
  login_required request (λ request_user,
    group <- get_object_or_404 groups group_id;
    event <- get_event_or_404 event_id group_id;
    joined <- read (λ db, bool_decide (request_user ∈ members_of (event_members db) event_id));
    if negb joined then
      _ <- messages_add not_a_member;
      ret (redirect_group_detail group_id)
    else
      _ <- write (members_remove event_id request_user);
      _ <- messages_add (left_event (name event));
      event' <- do_check_status event;
      _ <- write (Event_save event_id event');
      ret (redirect_group_detail group_id)).

Definition delete_event (request : Request) (group_id event_id : positive) : M Response :=
  login_required request (λ request_user,
    group <- get_object_or_404 groups group_id;
    event <- get_event_or_404 event_id group_id;
    if decide (request_user ≠ admin group) then
      _ <- messages_add only_admin_can_delete;
      ret (redirect_group_detail group_id)
    else
      _ <- write (Event_delete event_id);
      _ <- messages_add (event_deleted (name event));
      ret (redirect_group_detail group_id)).

(** [comment.save()]: under the key of the comment that is edited, under a
    new key for a new comment. *)
Definition Comment_save (pk : option positive) (comment : Comment) (db : DB) : DB :=
  match pk with
  | Some k => set_comments (<[k := comment]>) db
  | None => set_comments (<[fresh (dom (comments db)) := comment]>) db
  end.

(** The loop of [group_detail] that fills [event_share_info]. *)
Fixpoint event_share_info (db : DB) (request_user : positive)
    (evs : list (positive * Event)) : result (list (positive * ShareInfo)) :=
  match evs with
  | [] => Ok []
  | (k, event) :: rest =>
      let event_share := calculate_share db event in
      match profile_of db request_user with
      | None => Raise RelatedObjectDoesNotExist
      | Some p =>
          let user_eligible := Qle_bool event_share (max_spend p) in
          let user_has_joined := bool_decide (request_user ∈ members_of (event_members db) k) in
          match event_share_info db request_user rest with
          | Raise e => Raise e
          | Ok infos =>
              Ok ((k, mkShareInfo event_share user_eligible (status event) user_has_joined)
                    :: infos)
          end
      end
  end.

(** [group.events.all()]. *)
Definition group_events (db : DB) (group_id : positive) : list (positive * Event) :=
  map_to_list (filter (λ kp, group kp.2 = group_id) (events db)).

(** The end of [group_detail], which renders the page. *)
Definition group_detail_render (request_user group_id : positive)
    (comment_to_edit : option positive) : M Response :=
  infos <- read (λ db, event_share_info db request_user (group_events db group_id));
  event_share_info <- lift infos;
  ret (render_group_detail group_id comment_to_edit event_share_info).

(** [group_detail] from [if request.method == 'POST'] on. *)
Definition group_detail_form (request : Request) (request_user group_id : positive)
    (comment_to_edit : option positive) : M Response :=
  match method request with
  | POST =>
      match post_comment request with
      | Some text =>
          _ <- write (Comment_save comment_to_edit (mkComment request_user group_id text));
          ret (redirect_group_detail group_id)
      | None => group_detail_render request_user group_id comment_to_edit
      end
  | GET => group_detail_render request_user group_id comment_to_edit
  end.

(** [edit_comment_id] comes from the URL and is tested for truth: [None] and
    0 both mean that no comment is edited. *)
Definition group_detail (request : Request) (group_id : positive)
    (edit_comment_id : option N) : M Response :=
  login_required request (λ request_user,
    group <- get_object_or_404 groups group_id;
    match edit_comment_id with
    | Some (Npos comment_id) =>
        comment_to_edit <- get_object_or_404 comments comment_id;
        if decide (comment_user comment_to_edit ≠ request_user) then
          ret (redirect_group_detail group_id)
        else group_detail_form request request_user group_id (Some comment_id)
    | _ => group_detail_form request request_user group_id None
    end).

(** ** Sequences of requests *)

Inductive Call :=
  | call_group_detail (request : Request) (group_id : positive) (edit_comment_id : option N)
  | call_create_event (request : Request) (group_id : positive)
  | call_join_event (request : Request) (group_id event_id : positive)
  | call_update_event_status (request : Request) (group_id event_id : positive)
  | call_leave_event (request : Request) (group_id event_id : positive)
  | call_delete_event (request : Request) (group_id event_id : positive)
  | call_Profile_save (pk : option positive) (self : Profile).

(** The database after a call. *)
Definition run (c : Call) (db : DB) : DB :=
  match c with
  | call_group_detail request group_id edit => (group_detail request group_id edit db).1.1
  | call_create_event request group_id => (create_event request group_id db).1.1
  | call_join_event request group_id event_id => (join_event request group_id event_id db).1.1
  | call_update_event_status request group_id event_id =>
      (update_event_status request group_id event_id db).1.1
  | call_leave_event request group_id event_id => (leave_event request group_id event_id db).1.1
  | call_delete_event request group_id event_id => (delete_event request group_id event_id db).1.1
  | call_Profile_save pk self => (Profile_save pk self db).1
  end.

Definition run_all (cs : list Call) (db : DB) : DB :=
  foldl (λ db c, run c db) db cs.

(** Every [join_event] of the sequence is requested by a member of the group
    named in its URL, in the database the request meets. *)
Fixpoint joins_by_group_members (cs : list Call) (db : DB) : Prop :=
  match cs with
  | [] => True
  | c :: rest =>
      match c with
      | call_join_event request group_id _ =>
          ∀ u, user request = Some u → u ∈ members_of (group_members db) group_id
      | _ => True
      end ∧ joins_by_group_members rest (run c db)
  end.

(** Every event's members are members of its group, and no membership row is
    left of an event that is gone. *)
Definition event_members_within_group (db : DB) : Prop :=
  ∀ event_id,
    match events db !! event_id with
    | Some event =>
        members_of (event_members db) event_id ⊆ members_of (group_members db) (group event)
    | None => members_of (event_members db) event_id = ∅
    end.

(** Every user of [members] has a profile whose limit covers [share]. *)
Definition all_afford (db : DB) (share : Q) (members : positive → Prop) : Prop :=
  ∀ m, members m → ∃ p, profile_of db m = Some p ∧ (share <= max_spend p)%Q.

(** ** Sample data *)

Definition sample_profile (u : positive) (nick : string) (spend : Q) : Profile :=
  mkProfile u "" "" nick spend 100.

Definition sample_request (u : positive) (m : Method) : Request :=
  mkRequest (Some u) m None missing missing None.

(** A group of users 1 and 2, administered by 1, with limits 50 and 150; user
    3 is outside the group and has a limit of 500. *)
Definition sample_db (spend : Q) (joined : gset positive) : DB :=
  mkDB {[ 1%positive := sample_profile 1 "ann" 50;
          2%positive := sample_profile 2 "bob" 150;
          3%positive := sample_profile 3 "cat" 500 ]}
       {[ 1%positive := mkGroup "trip" 1 ]}
       {[ 1%positive := {[ 1%positive; 2%positive ]} ]}
       {[ 1%positive := mkEvent "dinner" "2024-06-01" spend "Pending" 1 ]}
       {[ 1%positive := joined ]}
       {[ 1%positive := mkComment 1 1 "hello" ]}.

Definition sample_event (spend : Q) : Event :=
  mkEvent "dinner" "2024-06-01" spend "Pending" 1.



(** ** Signals (users/models.py) *)

(** [Profile(user=instance)], every other field at its default. *)
Definition default_profile (instance : positive) : Profile :=
  mkProfile instance "" "" "" 100 100.

(** [create_user_profile], the receiver of [post_save] of [User]:
    [Profile.objects.get_or_create(user=instance)] for a created user, which
    saves a new profile when the user has none. *)
Definition create_user_profile (instance : positive) (created : bool) (db : DB)
    : DB * result unit :=
  if created then
    match profile_of db instance with
    | Some _ => (db, Ok tt)
    | None => Profile_save None (default_profile instance) db
    end
  else (db, Ok tt).

(** The key and the row of [user.profile]. *)
Definition profile_entry_of (db : DB) (u : positive) : option (positive * Profile) :=
  (λ r, r.2) <$> list_find (λ kp, profile_user kp.2 = u) (map_to_list (profiles db)).

(** [save_user_profile], the second receiver of [post_save] of [User].
    [held] is the profile object that the instance already holds, with its
    key if it was saved; without one, [instance.profile] reads the row of the
    user, and [hasattr] is false when there is none. *)
Definition save_user_profile (instance : positive)
    (held : option (option positive * Profile)) (db : DB) : DB * result unit :=
  let profile :=
    match held with
    | Some obj => Some obj
    | None => (λ kp, (Some kp.1, kp.2)) <$> profile_entry_of db instance
    end in
  match profile with
  | Some (pk, p) => Profile_save pk p db
  | None => (db, Ok tt)
  end.

(** [stored] is [given] at the two places of a decimal field: a number of
    hundredths, off [given] by at most half a hundredth, and [given] itself
    when [given] is a number of hundredths. *)
Definition at_two_places (given stored : Q) : Prop :=
  (∃ c : Z, stored == inject_Z c / 100)%Q ∧
  (Qabs (stored - given) <= 1 # 200)%Q ∧
  (∀ c : Z, (given == inject_Z c / 100)%Q → stored = Qred given).

(** Every stored profile is a row as the table holds it, its amounts at two
    places. *)
Definition rows_as_written (db : DB) : Prop :=
  ∀ k p, profiles db !! k = Some p → to_row p = p.

(** No two profiles have the same nickname. *)
Definition unique_nicknames (db : DB) : Prop :=
  ∀ k1 k2 p1 p2,
    profiles db !! k1 = Some p1 → profiles db !! k2 = Some p2 →
    nickname p1 = nickname p2 → k1 = k2.

(** No two profiles belong to the same user. *)
Definition one_profile_per_user (db : DB) : Prop :=
  ∀ k1 k2 p1 p2,
    profiles db !! k1 = Some p1 → profiles db !! k2 = Some p2 →
    profile_user p1 = profile_user p2 → k1 = k2.

(** * Properties *)

(** ** Decimal comparison *)

Lemma Qlt_bool_false (x y : Q) : Qlt_bool x y = false ↔ (y <= x)%Q.
Proof. unfold Qlt_bool, Qle. apply Z.ltb_ge. Qed.

Lemma Qlt_bool_true (x y : Q) : Qlt_bool x y = true ↔ (x < y)%Q.
Proof. unfold Qlt_bool, Qlt. apply Z.ltb_lt. Qed.

Lemma Qlt_bool_negb_Qle_bool (x y : Q) : Qlt_bool x y = negb (Qle_bool y x).
Proof. unfold Qlt_bool, Qle_bool. apply Z.ltb_antisym. Qed.

(** ** Decimal rounding *)

Lemma round_half_even_floor (y : Q) :
  round_half_even y = Qfloor y ∨ round_half_even y = (Qfloor y + 1)%Z.
Proof.
  unfold round_half_even.
  destruct (y - inject_Z (Qfloor y) ?= 1 # 2)%Q; [| by left | by right].
  destruct (Z.even (Qfloor y)); [by left | by right].
Qed.

Lemma round_half_even_near (y : Q) :
  (Qabs (inject_Z (round_half_even y) - y) <= 1 # 2)%Q.
Proof.
  pose proof (Qfloor_le y) as Hle. pose proof (Qlt_floor y) as Hlt.
  rewrite inject_Z_plus in Hlt. change (inject_Z 1) with 1%Q in Hlt.
  apply Qabs_Qle_condition. unfold round_half_even.
  destruct (Qcompare_spec (y - inject_Z (Qfloor y)) (1 # 2)) as [Heq | Hc | Hc].
  - destruct (Z.even (Qfloor y)); [| rewrite inject_Z_plus; change (inject_Z 1) with 1%Q];
      set (f := inject_Z (Qfloor y)) in *; split; lra.
  - set (f := inject_Z (Qfloor y)) in *. split; lra.
  - rewrite inject_Z_plus. change (inject_Z 1) with 1%Q.
    set (f := inject_Z (Qfloor y)) in *. split; lra.
Qed.

Lemma round_half_even_exact (y : Q) (c : Z) :
  (y == inject_Z c)%Q → round_half_even y = c.
Proof.
  intros Hy. unfold round_half_even.
  assert (Hf : Qfloor y = c) by (rewrite Hy; apply Qfloor_Z).
  rewrite Hf.
  set (z := inject_Z c) in *.
  destruct (Qcompare_spec (y - z) (1 # 2)) as [Heq | Hc | Hc]; [lra | done | lra].
Qed.

Lemma ten_pow_pos (s : Z) : (0 < 10 ^ s)%Q.
Proof. by apply Qpower_0_lt. Qed.

Lemma ten_pow_cancel (s : Z) : (10 ^ s * 10 ^ (- s) == 1)%Q.
Proof.
  rewrite <- Qpower_plus by done. by rewrite Z.add_opp_diag_r.
Qed.

Lemma quantize_value (x : Q) (s : Z) :
  (quantize x s == inject_Z (round_half_even (x * 10 ^ s)) * 10 ^ (- s))%Q.
Proof. unfold quantize. apply Qred_correct. Qed.

Lemma quantize_near (x : Q) (s : Z) :
  (Qabs (quantize x s - x) <= (1 # 2) * 10 ^ (- s))%Q.
Proof.
  assert (Hdiff : (quantize x s - x ==
                   (inject_Z (round_half_even (x * 10 ^ s)) - x * 10 ^ s) * 10 ^ (- s))%Q).
  { rewrite quantize_value.
    assert (Hx : (x == x * (10 ^ s * 10 ^ (- s)))%Q) by (rewrite ten_pow_cancel; ring).
    rewrite Hx at 2. ring. }
  rewrite Hdiff, Qabs_Qmult. rewrite (Qabs_pos (10 ^ (- s))) by apply Qlt_le_weak, ten_pow_pos.
  apply Qmult_le_compat_r; [apply round_half_even_near |].
  apply Qlt_le_weak, ten_pow_pos.
Qed.












(** ** [calculate_share] *)

(** [members.count()] is 0 exactly for a group without members. *)
Lemma members_count_zero (s : gset positive) : size s = 0 ↔ s = ∅.
Proof.
  split.
  - intros Hs. apply leibniz_equiv. by apply size_empty_inv.
  - intros ->. apply size_empty.
Qed.




(** ** [check_status] *)

Lemma check_status_loop_true db share e (l : list positive) :
  (check_status_loop db share e l).1 = Ok true ↔ all_afford db share (λ m, m ∈ l).
Proof.
  unfold all_afford. induction l as [| m l IH]; simpl.
  - split; [| done]. intros _ m Hm. by apply elem_of_nil in Hm.
  - destruct (profile_of db m) as [p |] eqn:Hp.
    + destruct (Qlt_bool (max_spend p) share) eqn:Hlt; simpl.
      * split; [done |]. intros H. destruct (H m) as (p' & Hp' & Hle); [left |].
        rewrite Hp in Hp'. injection Hp' as <-.
        apply Qlt_bool_false in Hle. congruence.
      * rewrite IH. split.
        -- intros H m' Hm'. apply elem_of_cons in Hm' as [-> | Hm']; [| by apply H].
           exists p. split; [done |]. by apply Qlt_bool_false.
        -- intros H m' Hm'. apply H. by right.
    + simpl. split; [done |]. intros H. destruct (H m) as (p' & Hp' & _); [left |].
      congruence.
Qed.

Lemma check_status_loop_event db share e (l : list positive) :
  ((check_status_loop db share e l).1 = Ok true →
     (check_status_loop db share e l).2 = set_status "Active" e) ∧
  ((check_status_loop db share e l).1 = Ok false →
     (check_status_loop db share e l).2 = set_status "Pending" e).
Proof.
  induction l as [| m l IH]; simpl.
  - split; [done | discriminate].
  - destruct (profile_of db m) as [p |]; simpl; [| split; discriminate].
    destruct (Qlt_bool (max_spend p) share); simpl; [| exact IH].
    split; [discriminate | done].
Qed.

Lemma check_status_loop_returns db share e (l : list positive) :
  (∀ m, m ∈ l → is_Some (profile_of db m)) →
  ∃ b, (check_status_loop db share e l).1 = Ok b.
Proof.
  induction l as [| m l IH]; simpl; intros Hl.
  - by exists true.
  - destruct (Hl m) as [p ->]; [left |].
    destruct (Qlt_bool (max_spend p) share); simpl.
    + by exists false.
    + apply IH. intros m' Hm'. apply Hl. by right.
Qed.

Lemma check_status_loop_group db share e (l : list positive) :
  group (check_status_loop db share e l).2 = group e.
Proof.
  induction l as [| m l IH]; simpl; [done |].
  destruct (profile_of db m) as [p |]; simpl; [| done].
  by destruct (Qlt_bool (max_spend p) share).
Qed.

Lemma check_status_loop_fields db share e (l : list positive) :
  name (check_status_loop db share e l).2 = name e ∧
  date (check_status_loop db share e l).2 = date e ∧
  total_spend (check_status_loop db share e l).2 = total_spend e ∧
  group (check_status_loop db share e l).2 = group e.
Proof.
  induction l as [| m l IH]; simpl; [done |].
  destruct (profile_of db m) as [p |]; simpl; [| done].
  by destruct (Qlt_bool (max_spend p) share).
Qed.

(** C1: [check_status] returns true exactly when every member of the event's
    group has a profile whose [max_spend] is at least the share of
    [calculate_share]; the [status] of the event is "Active" after it
    returned true and "Pending" after it returned false, the other fields of
    the event being as they were; and it does return when every member of
    the group has a profile. *)
Theorem check_status_spec (db : DB) (e : Event) :
  let members := members_of (group_members db) (group e) in
  let out := check_status db e in
  (out.1 = Ok true ↔ all_afford db (calculate_share db e) (λ m, m ∈ members)) ∧
  (out.1 = Ok true → status out.2 = "Active") ∧
  (out.1 = Ok false → status out.2 = "Pending") ∧
  (name out.2 = name e ∧ date out.2 = date e ∧
   total_spend out.2 = total_spend e ∧ group out.2 = group e) ∧
  ((∀ m, m ∈ members → is_Some (profile_of db m)) → ∃ b, out.1 = Ok b).
Proof.
  intros members out. subst out. unfold check_status. fold members.
  pose proof (check_status_loop_event db (calculate_share db e) e (elements members))
    as [Hactive Hpending].
  split; [| split; [| split; [| split]]].
  - rewrite check_status_loop_true. unfold all_afford.
    by setoid_rewrite elem_of_elements.
  - intros H. by rewrite (Hactive H).
  - intros H. by rewrite (Hpending H).
  - apply check_status_loop_fields.
  - intros H. apply check_status_loop_returns.
    intros m Hm. apply H. by apply elem_of_elements.
Qed.

Lemma check_status_spec_witness :
  status (check_status (sample_db 100 ∅) (sample_event 100)).2 = "Active"
  ∧ status (check_status (sample_db 300 ∅) (sample_event 300)).2 = "Pending"
  ∧ ∃ b, (check_status (sample_db 100 ∅) (sample_event 100)).1 = Ok b.
Proof.
  split; [| split].
  - apply (proj1 (proj2 (check_status_spec (sample_db 100 ∅) (sample_event 100)))).
    vm_compute. reflexivity.
  - apply (proj1 (proj2 (proj2 (check_status_spec (sample_db 300 ∅) (sample_event 300))))).
    vm_compute. reflexivity.
  - apply (check_status_spec (sample_db 100 ∅) (sample_event 100)).
    intros m Hm. vm_compute in Hm.
    destruct m as [[] | [] |]; try discriminate Hm; vm_compute; eauto.
Defined.

(** ** Running a handler *)

Ltac unfold_monad :=
  unfold login_required, get_object_or_404, get_event_or_404, get_profile,
    do_check_status, bind, read, write, ret, raise, lift, messages_add.

(** ** The two derivations of the status *)

Lemma all_can_cover_check_status_loop db share e (l : list positive) :
  all_can_cover db share l = (check_status_loop db share e l).1.
Proof.
  induction l as [| m l IH]; simpl; [done |].
  destruct (profile_of db m) as [p |]; simpl; [| done].
  rewrite Qlt_bool_negb_Qle_bool.
  destruct (Qle_bool share (max_spend p)); simpl; [exact IH | done].
Qed.

Lemma update_event_status_admin db request group_id event_id g e :
  user request = Some (admin g) →
  groups db !! group_id = Some g →
  events db !! event_id = Some e →
  group e = group_id →
  update_event_status request group_id event_id db =
    match all_can_cover db (calculate_share db e)
            (elements (members_of (group_members db) group_id)) with
    | Ok true =>
        (Event_save event_id (set_status "Active" e) db,
         [event_now_active (name e)], Ok (redirect_group_detail group_id))
    | Ok false =>
        (Event_save event_id (set_status "Pending" e) db,
         [event_remains_pending (name e)], Ok (redirect_group_detail group_id))
    | Raise x => (db, [], Raise x)
    end.
Proof.
  intros Hu Hg He Hge. unfold update_event_status. unfold_monad.
  rewrite Hu, Hg, He. simpl.
  destruct (decide (group e = group_id)); [| done]. simpl.
  destruct (decide (admin g ≠ admin g)); [done |]. simpl.
  destruct (all_can_cover _ _ _) as [[|] |]; done.
Qed.


(** ** [update_event_status] *)

(** C3, as amended: for a request of the group's admin on an event of the
    group all of whose members have a profile, [update_event_status] saves
    the event with status "Active" exactly when every member of the group
    (whether or not the member joined the event) has a [max_spend] of at
    least the share, and with status "Pending" otherwise; the other fields
    of the saved event are as they were. *)
Theorem update_event_status_over_group_members
    (db : DB) (request : Request) (group_id event_id : positive) (g : Group) (e : Event) :
  user request = Some (admin g) →
  groups db !! group_id = Some g →
  events db !! event_id = Some e →
  group e = group_id →
  (∀ m, m ∈ members_of (group_members db) group_id → is_Some (profile_of db m)) →
  ∃ e', events (update_event_status request group_id event_id db).1.1 !! event_id
          = Some e' ∧
        (status e' = "Active" ∨ status e' = "Pending") ∧
        (status e' = "Active" ↔
           all_afford db (calculate_share db e)
             (λ m, m ∈ members_of (group_members db) group_id)) ∧
        name e' = name e ∧ date e' = date e ∧
        total_spend e' = total_spend e ∧ group e' = group e.
Proof.
  intros Hu Hg He Hge Hprofiles.
  rewrite (update_event_status_admin db request group_id event_id g e) by done.
  set (l := elements (members_of (group_members db) group_id)).
  assert (Hiff : all_can_cover db (calculate_share db e) l = Ok true ↔
                 all_afford db (calculate_share db e)
                   (λ m, m ∈ members_of (group_members db) group_id)).
  { rewrite (all_can_cover_check_status_loop db _ e), check_status_loop_true.
    unfold all_afford, l. by setoid_rewrite elem_of_elements. }
  destruct (check_status_loop_returns db (calculate_share db e) e l) as [b Hb].
  { intros m Hm. apply Hprofiles. by apply elem_of_elements. }
  rewrite <- all_can_cover_check_status_loop in Hb. rewrite Hb in *.
  destruct b; simpl.
  - exists (set_status "Active" e). rewrite lookup_insert_eq.
    split; [done |]. split; [by left |].
    split; [| done]. split; [intros _; by apply Hiff | done].
  - exists (set_status "Pending" e). rewrite lookup_insert_eq.
    split; [done |]. split; [by right |].
    split; [| done]. split; [discriminate |]. intros H. apply Hiff in H. discriminate.
Qed.

Lemma update_event_status_over_group_members_witness :
  ∃ e', events (update_event_status (sample_request 1 POST) 1 1 (sample_db 100 ∅)).1.1
          !! 1%positive = Some e' ∧
        (status e' = "Active" ∨ status e' = "Pending") ∧
        (status e' = "Active" ↔
           all_afford (sample_db 100 ∅) (calculate_share (sample_db 100 ∅) (sample_event 100))
             (λ m, m ∈ members_of (group_members (sample_db 100 ∅)) 1)) ∧
        name e' = name (sample_event 100) ∧ date e' = date (sample_event 100) ∧
        total_spend e' = total_spend (sample_event 100) ∧
        group e' = group (sample_event 100).
Proof.
  apply (update_event_status_over_group_members (sample_db 100 ∅) (sample_request 1 POST)
           1 1 (mkGroup "trip" 1) (sample_event 100)); try reflexivity.
  intros m Hm. vm_compute in Hm.
  destruct m as [[] | [] |]; try discriminate Hm; vm_compute; eauto.
Defined.

(** C3, as stated, fails: users 1 and 2 form the group, only user 2 joined
    the event, and the share of 150 is within user 2's limit but not within
    user 1's. Every event member can afford the share, and the admin's
    [update_event_status] saves "Pending". *)
Lemma update_event_status_not_over_event_members :
  let db := sample_db 300 {[2%positive]} in
  all_afford db (calculate_share db (sample_event 300))
    (λ m, m ∈ members_of (event_members db) 1) ∧
  events db !! 1%positive = Some (sample_event 300) ∧
  status <$> events (update_event_status (sample_request 1 POST) 1 1 db).1.1 !! 1%positive
    = Some "Pending".
Proof.
  split; [| split; reflexivity].
  intros m Hm. vm_compute in Hm.
  destruct m as [[] | [] |]; try discriminate Hm.
  eexists. split; [vm_compute; reflexivity |].
  vm_compute. discriminate.
Qed.


(** ** [join_event] and [leave_event] *)

(** C5: when the requesting user's [max_spend] is strictly below the share of
    an event of the group, [join_event] answers with an error message and a
    redirect, and leaves the database, so the members of the event, as they
    were. *)
Theorem join_event_rejects_low_max_spend
    (db : DB) (request : Request) (u group_id event_id : positive)
    (g : Group) (e : Event) (p : Profile) :
  user request = Some u →
  groups db !! group_id = Some g →
  events db !! event_id = Some e →
  group e = group_id →
  profile_of db u = Some p →
  (max_spend p < calculate_share db e)%Q →
  join_event request group_id event_id db =
    (db, [max_spend_too_low (max_spend p)], Ok (redirect_group_detail group_id)) ∧
  level (max_spend_too_low (max_spend p)) = level_error ∧
  members_of (event_members (join_event request group_id event_id db).1.1) event_id
    = members_of (event_members db) event_id.
Proof.
  intros Hu Hg He Hge Hp Hlt. apply Qlt_bool_true in Hlt.
  assert (Hrun : join_event request group_id event_id db =
    (db, [max_spend_too_low (max_spend p)], Ok (redirect_group_detail group_id))).
  { unfold join_event. unfold_monad. rewrite Hu, Hg, He. simpl.
    destruct (decide (group e = group_id)); [| done]. simpl.
    rewrite Hp. simpl. by rewrite Hlt. }
  by rewrite Hrun.
Qed.

Lemma join_event_rejects_low_max_spend_witness :
  join_event (sample_request 1 POST) 1 1 (sample_db 300 ∅) =
    (sample_db 300 ∅, [max_spend_too_low 50], Ok (redirect_group_detail 1)).
Proof.
  apply (join_event_rejects_low_max_spend (sample_db 300 ∅) (sample_request 1 POST)
           1 1 1 (mkGroup "trip" 1) (sample_event 300) (sample_profile 1 "ann" 50));
    reflexivity.
Defined.

(** A request to join an event by one of its members changes nothing,
    however the request ends. *)
Lemma join_event_member_unchanged db request u group_id event_id :
  user request = Some u →
  u ∈ members_of (event_members db) event_id →
  (join_event request group_id event_id db).1.1 = db.
Proof.
  intros Hu Hin. unfold join_event. unfold_monad. rewrite Hu. simpl.
  destruct (groups db !! group_id); [| done]. simpl.
  destruct (events db !! event_id) as [e |]; [| done]. simpl.
  destruct (decide (group e = group_id)); [| done]. simpl.
  destruct (profile_of db u) as [p |]; [| done]. simpl.
  destruct (Qlt_bool (max_spend p) (calculate_share db e)); [done |]. simpl.
  by rewrite bool_decide_eq_true_2.
Qed.

(** A request to leave an event by a user who is not one of its members
    changes nothing, however the request ends. *)
Lemma leave_event_non_member_unchanged db request u group_id event_id :
  user request = Some u →
  u ∉ members_of (event_members db) event_id →
  (leave_event request group_id event_id db).1.1 = db.
Proof.
  intros Hu Hin. unfold leave_event. unfold_monad. rewrite Hu. simpl.
  destruct (groups db !! group_id); [| done]. simpl.
  destruct (events db !! event_id) as [e |]; [| done]. simpl.
  destruct (decide (group e = group_id)); [| done]. simpl.
  by rewrite bool_decide_eq_false_2.
Qed.

(** C6, as amended: a [join_event] by a user who is already a member of the
    event leaves the database as it was, and, for an event of the group and
    a user whose [max_spend] is at least the share, answers "already
    joined"; a [leave_event] on an event of the group by a user who is not
    a member of the event answers with an error and leaves the database as
    it was. *)
Theorem state_conflicts_change_nothing
    (db : DB) (request : Request) (u group_id event_id : positive)
    (g : Group) (e : Event) :
  user request = Some u →
  groups db !! group_id = Some g →
  events db !! event_id = Some e →
  group e = group_id →
  (u ∈ members_of (event_members db) event_id →
     (join_event request group_id event_id db).1.1 = db ∧
     ∀ p, profile_of db u = Some p → (calculate_share db e <= max_spend p)%Q →
       join_event request group_id event_id db =
         (db, [already_joined], Ok (redirect_group_detail group_id))) ∧
  (u ∉ members_of (event_members db) event_id →
     leave_event request group_id event_id db =
       (db, [not_a_member], Ok (redirect_group_detail group_id)) ∧
     level not_a_member = level_error).
Proof.
  intros Hu Hg He Hge. split.
  - intros Hin. split; [by eapply join_event_member_unchanged |].
    intros p Hp Hle. apply Qlt_bool_false in Hle.
    unfold join_event. unfold_monad. rewrite Hu, Hg, He. simpl.
    destruct (decide (group e = group_id)); [| done]. simpl.
    rewrite Hp. simpl. rewrite Hle. simpl.
    by rewrite bool_decide_eq_true_2.
  - intros Hin. split; [| done].
    unfold leave_event. unfold_monad. rewrite Hu, Hg, He. simpl.
    destruct (decide (group e = group_id)); [| done]. simpl.
    by rewrite bool_decide_eq_false_2.
Qed.

Lemma state_conflicts_change_nothing_witness :
  join_event (sample_request 2 POST) 1 1 (sample_db 100 {[2%positive]}) =
    (sample_db 100 {[2%positive]}, [already_joined], Ok (redirect_group_detail 1)) ∧
  leave_event (sample_request 2 POST) 1 1 (sample_db 100 ∅) =
    (sample_db 100 ∅, [not_a_member], Ok (redirect_group_detail 1)).
Proof.
  split.
  - apply (state_conflicts_change_nothing (sample_db 100 {[2%positive]})
             (sample_request 2 POST) 2 1 1 (mkGroup "trip" 1) (sample_event 100)
             eq_refl eq_refl eq_refl eq_refl)
      with (p := sample_profile 2 "bob" 150).
    + vm_compute. reflexivity.
    + reflexivity.
    + vm_compute. discriminate.
  - apply (state_conflicts_change_nothing (sample_db 100 ∅)
             (sample_request 2 POST) 2 1 1 (mkGroup "trip" 1) (sample_event 100)
             eq_refl eq_refl eq_refl eq_refl).
    vm_compute. discriminate.
Defined.

(** C6, as stated, fails: user 1, with a limit of 50, joins the event at a
    share of 50 and the limit is then lowered to 20 by saving the profile.
    User 1 is a member of the event, and the request to join again is
    answered with the "max spend too low" error, not with "already
    joined". *)
Lemma join_event_member_not_already_joined :
  let db1 := (join_event (sample_request 1 POST) 1 1 (sample_db 100 ∅)).1.1 in
  let db2 := (Profile_save (Some 1%positive) (sample_profile 1 "ann" 20) db1).1 in
  1%positive ∈ members_of (event_members db2) 1 ∧
  join_event (sample_request 1 POST) 1 1 db2 =
    (db2, [max_spend_too_low 20], Ok (redirect_group_detail 1)) ∧
  (join_event (sample_request 1 POST) 1 1 db2).1.2 ≠ [already_joined].
Proof.
  split; [| split].
  - vm_compute. reflexivity.
  - vm_compute. reflexivity.
  - vm_compute. discriminate.
Qed.

(** ** Admin-only handlers *)

(** C7: a request whose user is not the admin of the group leaves the
    database, so every event, its fields, status and members, as it was,
    whether it asks to create an event, to delete one or to update the
    status of one; with an existing group and event the answer is the
    handler's error message and a redirect. A request that changes the
    database is therefore the admin's. *)
Theorem non_admin_changes_nothing
    (db : DB) (request : Request) (group_id event_id : positive) :
  (∀ u g, user request = Some u → groups db !! group_id = Some g → u ≠ admin g) →
  ((create_event request group_id db).1.1 = db ∧
   (delete_event request group_id event_id db).1.1 = db ∧
   (update_event_status request group_id event_id db).1.1 = db) ∧
  (∀ u g, user request = Some u → groups db !! group_id = Some g →
     create_event request group_id db =
       (db, [only_admin_can_create], Ok (redirect_group_detail group_id)) ∧
     ∀ e, events db !! event_id = Some e → group e = group_id →
       delete_event request group_id event_id db =
         (db, [only_admin_can_delete], Ok (redirect_group_detail group_id)) ∧
       update_event_status request group_id event_id db =
         (db, [only_admin_can_update], Ok (redirect_group_detail group_id))).
Proof.
  intros Hna. split.
  - unfold create_event, delete_event, update_event_status. unfold_monad.
    destruct (user request) as [u |]; [| done]. simpl.
    destruct (groups db !! group_id) as [g |] eqn:Hg; [| done]. simpl.
    specialize (Hna u g eq_refl eq_refl).
    destruct (decide (u ≠ admin g)); [| done]. simpl.
    split; [done |].
    destruct (events db !! event_id) as [e |]; [| done]. simpl.
    destruct (decide (group e = group_id)); [| done]. simpl.
    by destruct (decide (u ≠ admin g)).
  - intros u g Hu Hg. specialize (Hna u g Hu Hg).
    unfold create_event, delete_event, update_event_status. unfold_monad.
    rewrite Hu, Hg. simpl.
    destruct (decide (u ≠ admin g)); [| done]. simpl.
    split; [done |]. intros e He Hge. rewrite He. simpl.
    destruct (decide (group e = group_id)); [| done]. simpl.
    by destruct (decide (u ≠ admin g)).
Qed.

Lemma non_admin_changes_nothing_witness :
  (create_event (sample_request 2 POST) 1 (sample_db 100 ∅)).1.1 = sample_db 100 ∅ ∧
  (delete_event (sample_request 2 POST) 1 1 (sample_db 100 ∅)).1.1 = sample_db 100 ∅ ∧
  (update_event_status (sample_request 2 POST) 1 1 (sample_db 100 ∅)).1.1 = sample_db 100 ∅.
Proof.
  apply (non_admin_changes_nothing (sample_db 100 ∅) (sample_request 2 POST) 1 1).
  intros u g Hu Hg. vm_compute in Hu, Hg.
  injection Hu as <-. injection Hg as <-. simpl. discriminate.
Defined.

(** ** Comments *)

(** C9: a request to edit a comment by an authenticated user who is not its
    author leaves the database, so the comment's content, as it was, and,
    for an existing group, is answered with a redirect to the group page. *)
Theorem edit_by_non_author_rejected
    (db : DB) (request : Request) (u group_id comment_id : positive) (c : Comment) :
  user request = Some u →
  comments db !! comment_id = Some c →
  comment_user c ≠ u →
  (group_detail request group_id (Some (Npos comment_id)) db).1.1 = db ∧
  comments (group_detail request group_id (Some (Npos comment_id)) db).1.1 !! comment_id
    = Some c ∧
  (∀ g, groups db !! group_id = Some g →
     group_detail request group_id (Some (Npos comment_id)) db =
       (db, [], Ok (redirect_group_detail group_id))).
Proof.
  intros Hu Hc Hne.
  assert (Hrun : ∀ g, groups db !! group_id = Some g →
     group_detail request group_id (Some (Npos comment_id)) db =
       (db, [], Ok (redirect_group_detail group_id))).
  { intros g Hg. unfold group_detail. unfold_monad. rewrite Hu, Hg. simpl.
    rewrite Hc. simpl. by destruct (decide (comment_user c ≠ u)). }
  assert (Hdb : (group_detail request group_id (Some (Npos comment_id)) db).1.1 = db).
  { destruct (groups db !! group_id) as [g |] eqn:Hg.
    - by rewrite (Hrun g).
    - unfold group_detail. unfold_monad. rewrite Hu, Hg. done. }
  split; [done |]. split; [by rewrite Hdb | done].
Qed.

Lemma edit_by_non_author_rejected_witness :
  group_detail (mkRequest (Some 2%positive) POST None missing missing (Some "edited")) 1
    (Some 1%N) (sample_db 100 ∅) = (sample_db 100 ∅, [], Ok (redirect_group_detail 1)).
Proof.
  eapply (edit_by_non_author_rejected (sample_db 100 ∅)
            (mkRequest (Some 2%positive) POST None missing missing (Some "edited"))
            2 1 1 (mkComment 1 1 "hello")); try reflexivity.
  simpl. discriminate.
Defined.

(** ** [Profile.save] *)

Lemma qs_exists_true {A} (qs : gmap positive A) :
  qs_exists qs = true ↔ ∃ k a, qs !! k = Some a.
Proof.
  unfold qs_exists. rewrite negb_true_iff, bool_decide_eq_false, map_size_empty_iff.
  split.
  - apply map_choose.
  - intros (k & a & Hk) ->. by rewrite lookup_empty in Hk.
Qed.

Lemma same_nickname_others_lookup db pk self k p :
  same_nickname_others db pk self !! k = Some p ↔
  profiles db !! k = Some p ∧ Some k ≠ pk ∧ nickname p = nickname self.
Proof.
  unfold same_nickname_others. rewrite !map_lookup_filter_Some. simpl. tauto.
Qed.

Lemma same_user_others_lookup db k self k' p :
  same_user_others db k self !! k' = Some p ↔
  profiles db !! k' = Some p ∧ k' ≠ k ∧ profile_user p = profile_user self.
Proof.
  unfold same_user_others. rewrite !map_lookup_filter_Some. simpl. tauto.
Qed.

Lemma Profile_clean_Ok db pk self :
  Profile_clean db pk self = Ok tt ↔
  ∀ k p, profiles db !! k = Some p → Some k ≠ pk → nickname p ≠ nickname self.
Proof.
  unfold Profile_clean.
  destruct (qs_exists (same_nickname_others db pk self)) eqn:Hex.
  - split; [done |]. intros Hfree. exfalso.
    apply qs_exists_true in Hex as (k & p & H).
    apply same_nickname_others_lookup in H as (Hk & Hpk & Hnick). by eapply Hfree.
  - split; [| done]. intros _ k p Hk Hpk Hnick.
    assert (qs_exists (same_nickname_others db pk self) = true); [| congruence].
    apply qs_exists_true. exists k, p. by apply same_nickname_others_lookup.
Qed.

Lemma Profile_clean_cases db pk self :
  Profile_clean db pk self = Ok tt ∨ Profile_clean db pk self = Raise ValidationError.
Proof. unfold Profile_clean. destruct (qs_exists _); eauto. Qed.

(** The key under which [super().save()] writes. *)
Lemma save_key_cases (db : DB) (pk : option positive) :
  ∃ k, match pk with
       | Some k0 => k0
       | None => fresh (dom (profiles db))
       end = k ∧
       (pk = Some k ∨ (pk = None ∧ profiles db !! k = None)).
Proof.
  destruct pk as [k |]; eexists; (split; [done |]); [by left |].
  right. split; [done |]. apply not_elem_of_dom, is_fresh.
Qed.

Lemma Model_save_profile_cases db pk self :
  ∃ k, (pk = Some k ∨ (pk = None ∧ profiles db !! k = None)) ∧
       ((∀ k' p, profiles db !! k' = Some p → k' ≠ k →
           profile_user p ≠ profile_user self) →
        Model_save_profile pk self db = (set_profiles (<[k := to_row self]>) db, Ok tt)) ∧
       ((∃ k' p, profiles db !! k' = Some p ∧ k' ≠ k ∧
           profile_user p = profile_user self) →
        Model_save_profile pk self db = (db, Raise IntegrityError)).
Proof.
  unfold Model_save_profile.
  destruct (save_key_cases db pk) as (k & -> & Hk). exists k. split; [done |].
  destruct (qs_exists (same_user_others db k self)) eqn:Hex.
  - split; [| done]. intros Hfree. exfalso.
    apply qs_exists_true in Hex as (k' & p & H).
    apply same_user_others_lookup in H as (Hk' & Hne & Hu). by eapply Hfree.
  - split; [done |]. intros (k' & p & Hk' & Hne & Hu).
    assert (qs_exists (same_user_others db k self) = true); [| congruence].
    apply qs_exists_true. exists k', p. by apply same_user_others_lookup.
Qed.

Lemma other_key_of_pk (pk : option positive) (k k' : positive) (db : DB) (p : Profile) :
  pk = Some k ∨ (pk = None ∧ profiles db !! k = None) →
  profiles db !! k' = Some p →
  (k' ≠ k ↔ Some k' ≠ pk).
Proof.
  intros [-> | [-> Hnone]] Hk'.
  - split; congruence.
  - split; [done |]. intros _ ->. congruence.
Qed.

Lemma quantize_at_two_places (x : Q) : at_two_places x (quantize x 2).
Proof.
  split; [| split].
  - exists (round_half_even (x * 10 ^ 2)). rewrite quantize_value.
    apply Qmult_comp; [done |]. reflexivity.
  - pose proof (quantize_near x 2) as H.
    eapply Qle_trans; [exact H |]. apply Qle_lteq. right. reflexivity.
  - intros c Hc. unfold quantize. apply Qred_complete.
    assert (Hx : (x * 10 ^ 2 == inject_Z c)%Q).
    { rewrite Hc. change (10 ^ 2)%Q with 100%Q. field. }
    rewrite (round_half_even_exact _ c Hx), <- Hx.
    rewrite <- Qmult_assoc, ten_pow_cancel. ring.
Qed.

(** C8, as amended: saving a profile whose nickname is the nickname of a
    profile stored under another primary key raises a validation error and
    leaves the database as it was. When no profile under another key has the
    nickname, the save succeeds provided no profile under another key
    belongs to the same user: the row is written under the profile's own
    key or, for a profile that has none yet, under a key that was free, with
    [max_spend] and [balance] at two places; when a profile under another
    key belongs to the same user, the table refuses the write with an
    integrity error and the database is as it was. *)
Theorem Profile_save_nickname_unique (db : DB) (pk : option positive) (self : Profile) :
  ((∃ k p, profiles db !! k = Some p ∧ Some k ≠ pk ∧ nickname p = nickname self) →
     Profile_save pk self db = (db, Raise ValidationError)) ∧
  ((∀ k p, profiles db !! k = Some p → Some k ≠ pk → nickname p ≠ nickname self) →
     ((∀ k p, profiles db !! k = Some p → Some k ≠ pk →
         profile_user p ≠ profile_user self) →
      ∃ k row,
        Profile_save pk self db = (set_profiles (<[k := row]>) db, Ok tt) ∧
        profiles (Profile_save pk self db).1 !! k = Some row ∧
        (pk = Some k ∨ (pk = None ∧ profiles db !! k = None)) ∧
        profile_user row = profile_user self ∧ first_name row = first_name self ∧
        surname row = surname self ∧ nickname row = nickname self ∧
        at_two_places (max_spend self) (max_spend row) ∧
        at_two_places (balance self) (balance row)) ∧
     ((∃ k p, profiles db !! k = Some p ∧ Some k ≠ pk ∧
         profile_user p = profile_user self) →
      Profile_save pk self db = (db, Raise IntegrityError))).
Proof.
  split.
  - intros (k & p & Hk & Hpk & Hnick).
    destruct (Profile_clean_cases db pk self) as [Hok | Hraise].
    + exfalso. by apply (proj1 (Profile_clean_Ok db pk self) Hok k p).
    + unfold Profile_save. by rewrite Hraise.
  - intros Hfree. apply Profile_clean_Ok in Hfree.
    unfold Profile_save. rewrite Hfree.
    destruct (Model_save_profile_cases db pk self) as (k & Hkey & Hwrite & Hrefuse).
    split.
    + intros Huser. exists k, (to_row self).
      rewrite Hwrite.
      * simpl. rewrite lookup_insert_eq. do 7 (split; [done |]).
        split; apply quantize_at_two_places.
      * intros k' p Hk' Hne. apply (Huser k' p Hk').
        by apply (other_key_of_pk pk k k' db p).
    + intros (k' & p & Hk' & Hne & Hu). apply Hrefuse.
      exists k', p. split; [done |]. split; [| done].
      by apply (other_key_of_pk pk k k' db p).
Qed.

Lemma Profile_save_nickname_unique_witness :
  Profile_save None (sample_profile 4 "bob" 30) (sample_db 100 ∅)
    = (sample_db 100 ∅, Raise ValidationError) ∧
  (∃ k row, Profile_save (Some 2%positive) (sample_profile 2 "bob" 30) (sample_db 100 ∅)
              = (set_profiles (<[k := row]>) (sample_db 100 ∅), Ok tt) ∧
            nickname row = "bob" ∧
            at_two_places 30 (max_spend row)) ∧
  Profile_save None (sample_profile 2 "zed" 30) (sample_db 100 ∅)
    = (sample_db 100 ∅, Raise IntegrityError).
Proof.
  assert (Hrows : ∀ k p, profiles (sample_db 100 ∅) !! k = Some p →
            (k = 1%positive ∧ p = sample_profile 1 "ann" 50) ∨
            (k = 2%positive ∧ p = sample_profile 2 "bob" 150) ∨
            (k = 3%positive ∧ p = sample_profile 3 "cat" 500)).
  { intros k p H. destruct k as [[] | [] |]; vm_compute in H; try discriminate H;
      injection H as <-; auto. }
  split; [| split].
  - apply (Profile_save_nickname_unique (sample_db 100 ∅) None (sample_profile 4 "bob" 30)).
    exists 2%positive, (sample_profile 2 "bob" 150). split; [reflexivity |].
    split; [discriminate | reflexivity].
  - destruct (Profile_save_nickname_unique (sample_db 100 ∅) (Some 2%positive)
                (sample_profile 2 "bob" 30)) as [_ Hsave].
    destruct Hsave as [Hwritten _].
    + intros k p Hk Hpk. apply Hrows in Hk as [[-> ->] | [[-> ->] | [-> ->]]]; done.
    + destruct Hwritten as (k & row & Hrun & _ & _ & _ & _ & _ & Hnick & Hspend & _).
      * intros k p Hk Hpk. apply Hrows in Hk as [[-> ->] | [[-> ->] | [-> ->]]]; done.
      * exists k, row. split; [exact Hrun |]. split; [exact Hnick | exact Hspend].
  - destruct (Profile_save_nickname_unique (sample_db 100 ∅) None
                (sample_profile 2 "zed" 30)) as [_ Hsave].
    destruct Hsave as [_ Hrefused].
    + intros k p Hk Hpk. apply Hrows in Hk as [[-> ->] | [[-> ->] | [-> ->]]]; done.
    + apply Hrefused. exists 2%positive, (sample_profile 2 "bob" 150).
      split; [reflexivity |]. split; [discriminate | reflexivity].
Defined.

(** C8, as stated, fails: no stored profile has the nickname "zed", and user
    2 has a profile. Saving a new profile of user 2 with that nickname
    passes the validation of the nickname and is refused by the one-to-one
    field: it does not succeed, and nothing is stored. *)
Lemma Profile_save_second_profile_refused :
  (∀ k p, profiles (sample_db 100 ∅) !! k = Some p →
     nickname p ≠ nickname (sample_profile 2 "zed" 30)) ∧
  Profile_clean (sample_db 100 ∅) None (sample_profile 2 "zed" 30) = Ok tt ∧
  Profile_save None (sample_profile 2 "zed" 30) (sample_db 100 ∅)
    = (sample_db 100 ∅, Raise IntegrityError) ∧
  (Profile_save None (sample_profile 2 "zed" 30) (sample_db 100 ∅)).2 ≠ Ok tt.
Proof.
  split; [| split; [| split]].
  - intros k p H. destruct k as [[] | [] |]; vm_compute in H; try discriminate H;
      injection H as <-; discriminate.
  - vm_compute. reflexivity.
  - vm_compute. reflexivity.
  - vm_compute. discriminate.
Qed.

(** ** Event members and group members *)

Lemma members_of_insert t k s k' :
  members_of (<[k := s]> t) k' = if decide (k = k') then s else members_of t k'.
Proof.
  unfold members_of. rewrite lookup_insert. by destruct (decide (k = k')).
Qed.

Lemma members_of_delete t k k' :
  members_of (delete k t) k' = if decide (k = k') then ∅ else members_of t k'.
Proof.
  unfold members_of. rewrite lookup_delete. by destruct (decide (k = k')).
Qed.

Lemma within_group_set_profiles f db :
  event_members_within_group db → event_members_within_group (set_profiles f db).
Proof. done. Qed.

Lemma within_group_set_comments f db :
  event_members_within_group db → event_members_within_group (set_comments f db).
Proof. done. Qed.

Lemma within_group_Event_save db k e e' :
  events db !! k = Some e → group e' = group e →
  event_members_within_group db → event_members_within_group (Event_save k e' db).
Proof.
  intros He Hg Hinv k'. specialize (Hinv k'). simpl.
  rewrite lookup_insert. destruct (decide (k = k')) as [<- |]; [| done].
  rewrite He in Hinv. by rewrite Hg.
Qed.

Lemma within_group_members_add db k u e :
  events db !! k = Some e → u ∈ members_of (group_members db) (group e) →
  event_members_within_group db → event_members_within_group (members_add k u db).
Proof.
  intros He Hu Hinv k'. specialize (Hinv k'). simpl.
  rewrite members_of_insert. destruct (decide (k = k')) as [<- |]; [| done].
  rewrite He in *. apply union_subseteq. split; [done |].
  by apply singleton_subseteq_l.
Qed.

Lemma within_group_members_remove db k u :
  event_members_within_group db → event_members_within_group (members_remove k u db).
Proof.
  intros Hinv k'. specialize (Hinv k'). simpl.
  rewrite members_of_insert. destruct (decide (k = k')) as [<- |]; [| done].
  destruct (events db !! k).
  - intros x Hx. apply Hinv. by apply elem_of_difference in Hx as [Hx _].
  - rewrite Hinv. apply subseteq_empty_difference_L, empty_subseteq.
Qed.

Lemma within_group_Event_delete db k :
  event_members_within_group db → event_members_within_group (Event_delete k db).
Proof.
  intros Hinv k'. specialize (Hinv k'). simpl.
  rewrite lookup_delete, members_of_delete.
  destruct (decide (k = k')); done.
Qed.

Lemma within_group_Event_insert_fresh db e :
  event_members_within_group db →
  event_members_within_group (set_events (<[fresh (dom (events db)) := e]>) db).
Proof.
  intros Hinv k'. simpl. rewrite lookup_insert.
  destruct (decide (fresh (dom (events db)) = k')) as [<- |]; [| apply Hinv].
  specialize (Hinv (fresh (dom (events db)))).
  assert (Hnone : events db !! fresh (dom (events db)) = None).
  { apply not_elem_of_dom, is_fresh. }
  rewrite Hnone in Hinv. rewrite Hinv. apply empty_subseteq.
Qed.

Lemma check_status_group db e : group (check_status db e).2 = group e.
Proof. apply check_status_loop_group. Qed.

Lemma within_group_create_event db request group_id :
  event_members_within_group db →
  event_members_within_group (create_event request group_id db).1.1.
Proof.
  intros Hinv. unfold create_event, Event_create. unfold_monad.
  destruct (user request) as [u |]; [| done]. simpl.
  destruct (groups db !! group_id) as [g |]; [| done]. simpl.
  destruct (decide (u ≠ admin g)); [done |].
  destruct (method request); [done |].
  destruct (post_date request), (post_total_spend request), (post_name request);
    simpl; try done.
  by apply within_group_Event_insert_fresh.
Qed.

Lemma within_group_join_event db request group_id event_id :
  (∀ u, user request = Some u → u ∈ members_of (group_members db) group_id) →
  event_members_within_group db →
  event_members_within_group (join_event request group_id event_id db).1.1.
Proof.
  intros Hmember Hinv. unfold join_event. unfold_monad.
  destruct (user request) as [u |]; [| done]. simpl.
  specialize (Hmember u eq_refl).
  destruct (groups db !! group_id) as [g |]; [| done]. simpl.
  destruct (events db !! event_id) as [e |] eqn:He; [| done]. simpl.
  destruct (decide (group e = group_id)) as [Hge |]; [| done]. simpl.
  destruct (profile_of db u) as [p |]; [| done]. simpl.
  destruct (Qlt_bool (max_spend p) (calculate_share db e)); [done |]. simpl.
  destruct (bool_decide (u ∈ members_of (event_members db) event_id)); [done |]. simpl.
  assert (Hadd : event_members_within_group (members_add event_id u db)).
  { apply (within_group_members_add db event_id u e); [done | by rewrite Hge | done]. }
  pose proof (check_status_group (members_add event_id u db) e) as Hgroup.
  destruct (check_status (members_add event_id u db) e) as [[b | x] e']; simpl in *;
    [| done].
  by apply (within_group_Event_save _ event_id e e').
Qed.

Lemma within_group_update_event_status db request group_id event_id :
  event_members_within_group db →
  event_members_within_group (update_event_status request group_id event_id db).1.1.
Proof.
  intros Hinv. unfold update_event_status. unfold_monad.
  destruct (user request) as [u |]; [| done]. simpl.
  destruct (groups db !! group_id) as [g |]; [| done]. simpl.
  destruct (events db !! event_id) as [e |] eqn:He; [| done]. simpl.
  destruct (decide (group e = group_id)) as [Hge |]; [| done]. simpl.
  destruct (decide (u ≠ admin g)); [done |]. simpl.
  destruct (all_can_cover _ _ _) as [[|] | x]; simpl; [| | done];
    by apply (within_group_Event_save _ event_id e).
Qed.

Lemma within_group_leave_event db request group_id event_id :
  event_members_within_group db →
  event_members_within_group (leave_event request group_id event_id db).1.1.
Proof.
  intros Hinv. unfold leave_event. unfold_monad.
  destruct (user request) as [u |]; [| done]. simpl.
  destruct (groups db !! group_id) as [g |]; [| done]. simpl.
  destruct (events db !! event_id) as [e |] eqn:He; [| done]. simpl.
  destruct (decide (group e = group_id)) as [Hge |]; [| done]. simpl.
  destruct (bool_decide (u ∈ members_of (event_members db) event_id)); [| done]. simpl.
  assert (Hrem : event_members_within_group (members_remove event_id u db)).
  { by apply within_group_members_remove. }
  pose proof (check_status_group (members_remove event_id u db) e) as Hgroup.
  destruct (check_status (members_remove event_id u db) e) as [[b | x] e']; simpl in *;
    [| done].
  by apply (within_group_Event_save _ event_id e e').
Qed.

Lemma within_group_delete_event db request group_id event_id :
  event_members_within_group db →
  event_members_within_group (delete_event request group_id event_id db).1.1.
Proof.
  intros Hinv. unfold delete_event. unfold_monad.
  destruct (user request) as [u |]; [| done]. simpl.
  destruct (groups db !! group_id) as [g |]; [| done]. simpl.
  destruct (events db !! event_id) as [e |] eqn:He; [| done]. simpl.
  destruct (decide (group e = group_id)) as [Hge |]; [| done]. simpl.
  destruct (decide (u ≠ admin g)); [done |]. simpl.
  by apply within_group_Event_delete.
Qed.

Lemma within_group_group_detail db request group_id edit :
  event_members_within_group db →
  event_members_within_group (group_detail request group_id edit db).1.1.
Proof.
  intros Hinv.
  assert (Hform : ∀ u k, event_members_within_group
                           (group_detail_form request u group_id k db).1.1).
  { intros u k. unfold group_detail_form, group_detail_render, Comment_save. unfold_monad.
    destruct (method request); [| destruct (post_comment request)]; simpl;
      try (destruct (event_share_info db u (group_events db group_id)); done).
    destruct k; exact Hinv. }
  unfold group_detail. unfold_monad.
  destruct (user request) as [u |]; [| done]. simpl.
  destruct (groups db !! group_id) as [g |]; [| done]. simpl.
  assert (Hnone : event_members_within_group
                    (let (p, r) := group_detail_form request u group_id None db in
                     let (db'', ms') := p in (db'', ms', r)).1.1).
  { specialize (Hform u None).
    by destruct (group_detail_form request u group_id None db) as [[d l] r]. }
  destruct edit as [[| comment_id] |]; [done | | done].
  simpl. destruct (comments db !! comment_id) as [c |]; [| done]. simpl.
  destruct (decide (comment_user c ≠ u)); [done |].
  specialize (Hform u (Some comment_id)).
  by destruct (group_detail_form request u group_id (Some comment_id) db) as [[d l] r].
Qed.

Lemma within_group_Profile_save db pk self :
  event_members_within_group db →
  event_members_within_group (Profile_save pk self db).1.
Proof.
  intros Hinv. unfold Profile_save, Model_save_profile.
  destruct (Profile_clean db pk self); [| done].
  by destruct (qs_exists _).
Qed.

(** C4, as amended: [join_event] adds the requesting user without asking
    whether the user is a member of the event's group. Along any sequence of
    requests in which every [join_event] comes from a member of the group,
    each event's members stay within the members of its group. *)
Theorem event_members_stay_within_group (cs : list Call) (db : DB) :
  event_members_within_group db →
  joins_by_group_members cs db →
  event_members_within_group (run_all cs db).
Proof.
  revert db. induction cs as [| c cs IH]; intros db Hinv Hjoins; [done |].
  destruct Hjoins as [Hc Hrest]. simpl. apply IH; [| done].
  destruct c; simpl.
  - by apply within_group_group_detail.
  - by apply within_group_create_event.
  - by apply within_group_join_event.
  - by apply within_group_update_event_status.
  - by apply within_group_leave_event.
  - by apply within_group_delete_event.
  - by apply within_group_Profile_save.
Qed.

Lemma sample_db_within_group (spend : Q) :
  event_members_within_group (sample_db spend ∅).
Proof.
  intros k. unfold sample_db, members_of. simpl.
  destruct (decide (k = 1%positive)) as [-> | Hk].
  - rewrite !lookup_singleton_eq. simpl. apply empty_subseteq.
  - by rewrite !lookup_singleton_ne.
Qed.

Lemma event_members_stay_within_group_witness :
  event_members_within_group
    (run_all [call_join_event (sample_request 2 POST) 1 1;
              call_leave_event (sample_request 2 POST) 1 1]
       (sample_db 100 ∅)).
Proof.
  apply (event_members_stay_within_group
           [call_join_event (sample_request 2 POST) 1 1;
            call_leave_event (sample_request 2 POST) 1 1] (sample_db 100 ∅)).
  - apply sample_db_within_group.
  - simpl. split; [| done].
    intros u Hu. injection Hu as <-. vm_compute. reflexivity.
Defined.

(** C4, as stated, fails: user 3 is not a member of the group of users 1 and
    2 and has a limit of 500. In a database where every event's members are
    within its group, user 3's [join_event] on the group's event succeeds,
    and the event has a member who is not in its group. *)
Lemma join_event_by_non_group_member :
  let db := sample_db 100 ∅ in
  let db' := (join_event (sample_request 3 POST) 1 1 db).1.1 in
  event_members_within_group db ∧
  (3%positive ∉ members_of (group_members db) 1) ∧
  join_event (sample_request 3 POST) 1 1 db =
    (db', [joined_event "dinner"], Ok (redirect_group_detail 1)) ∧
  3%positive ∈ members_of (event_members db') 1 ∧
  ¬ event_members_within_group db'.
Proof.
  intros db db'. split; [apply sample_db_within_group |].
  assert (Hin : 3%positive ∈ members_of (event_members db') 1).
  { vm_compute. reflexivity. }
  split; [vm_compute; discriminate |].
  split; [vm_compute; reflexivity |].
  split; [done |].
  intros H. specialize (H 1%positive).
  assert (He : events db' !! 1%positive = Some (set_status "Active" (sample_event 100))).
  { vm_compute. reflexivity. }
  rewrite He in H. apply H in Hin. vm_compute in Hin. discriminate Hin.
Qed.

(** ** The examples of the specification *)

(** Limits of 50 and 150 and a total of 100: the share is 50 and the event
    becomes active. *)
Example share_of_100_is_active :
  (calculate_share (sample_db 100 ∅) (sample_event 100) == 50)%Q ∧
  check_status (sample_db 100 ∅) (sample_event 100)
    = (Ok true, set_status "Active" (sample_event 100)).
Proof. split; reflexivity. Qed.

(** The same group and a total of 300: the share is 150, above the limit of
    the first member, and the event is pending. *)
Example share_of_300_is_pending :
  (calculate_share (sample_db 300 ∅) (sample_event 300) == 150)%Q ∧
  check_status (sample_db 300 ∅) (sample_event 300)
    = (Ok false, set_status "Pending" (sample_event 300)).
Proof. split; reflexivity. Qed.

(** A member of the group joins the event and leaves it again. *)
Example member_joins_and_leaves :
  let db1 := (join_event (sample_request 2 POST) 1 1 (sample_db 100 ∅)).1.1 in
  let db2 := (leave_event (sample_request 2 POST) 1 1 db1).1.1 in
  elements (members_of (event_members db1) 1) = [2%positive] ∧
  status <$> events db1 !! 1%positive = Some "Active" ∧
  elements (members_of (event_members db2) 1) = [].
Proof. repeat split; vm_compute; reflexivity. Qed.

(** The author's own edit is applied. *)
Example edit_by_author_applied :
  comments (group_detail (mkRequest (Some 1%positive) POST None missing missing (Some "edited")) 1
              (Some 1%N) (sample_db 100 ∅)).1.1 !! 1%positive
    = Some (mkComment 1 1 "edited").
Proof. reflexivity. Qed.

(** The admin's requests do change the events. *)
Example admin_deletes_event :
  events (delete_event (sample_request 1 POST) 1 1 (sample_db 100 ∅)).1.1 !! 1%positive = None.
Proof. reflexivity. Qed.

Example admin_creates_event :
  (create_event (mkRequest (Some 1%positive) POST (Some "lunch") (value "2024-07-01")
                   (value 40%Q) None) 1 (sample_db 100 ∅)).2
    = Ok (redirect_group_detail 1) ∧
  size (events (create_event (mkRequest (Some 1%positive) POST (Some "lunch")
                                (value "2024-07-01") (value 40%Q) None) 1
                  (sample_db 100 ∅)).1.1) = 2.
Proof. split; vm_compute; reflexivity. Qed.

(** * Further properties of the handlers *)

(** ** What the share and the status depend on *)

Lemma calculate_share_ext db db' e e' :
  group_members db' = group_members db →
  total_spend e' = total_spend e → group e' = group e →
  calculate_share db' e' = calculate_share db e.
Proof. intros Hm Ht Hg. unfold calculate_share. by rewrite Hm, Ht, Hg. Qed.

Lemma profile_of_ext db db' u :
  profiles db' = profiles db → profile_of db' u = profile_of db u.
Proof. intros Hp. unfold profile_of. by rewrite Hp. Qed.

Lemma check_status_loop_ext db db' share e (l : list positive) :
  profiles db' = profiles db →
  check_status_loop db' share e l = check_status_loop db share e l.
Proof.
  intros Hp. induction l as [| m l IH]; simpl; [done |].
  rewrite (profile_of_ext db db' m Hp).
  destruct (profile_of db m) as [p |]; [| done].
  by destruct (Qlt_bool (max_spend p) share).
Qed.

Lemma check_status_ext db db' e :
  profiles db' = profiles db → group_members db' = group_members db →
  check_status db' e = check_status db e.
Proof.
  intros Hp Hm. unfold check_status.
  rewrite (calculate_share_ext db db' e e Hm eq_refl eq_refl), Hm.
  by apply check_status_loop_ext.
Qed.

Lemma check_status_loop_set_status db share e s (l : list positive) :
  (check_status_loop db share (set_status s e) l).1 = (check_status_loop db share e l).1 ∧
  (∀ b, (check_status_loop db share e l).1 = Ok b →
     (check_status_loop db share (set_status s e) l).2 = (check_status_loop db share e l).2).
Proof.
  induction l as [| m l IH]; simpl.
  - split; [done |]. intros b _. done.
  - destruct (profile_of db m) as [p |]; simpl; [| split; [done | discriminate]].
    destruct (Qlt_bool (max_spend p) share); simpl; [| exact IH].
    split; [done |]. intros b _. done.
Qed.

Lemma check_status_loop_saved db share e (l : list positive) b :
  (check_status_loop db share e l).1 = Ok b →
  (check_status_loop db share e l).2 = set_status (if b then "Active" else "Pending") e.
Proof.
  intros H. pose proof (check_status_loop_event db share e l) as [Ht Hf].
  destruct b; [by apply Ht | by apply Hf].
Qed.

Lemma check_status_saved db e b :
  (check_status db e).1 = Ok b →
  (check_status db e).2 = set_status (if b then "Active" else "Pending") e.
Proof. apply check_status_loop_saved. Qed.

(** X1: what [check_status] returns and the status it sets depend on the
    profiles and on the members of the group only: neither the users who
    joined the event nor any other event, nor the status the event had
    before, has a part in it. *)
Theorem check_status_ignores_event_members (db : DB) (e : Event)
    (evs : gmap positive Event) (joined : gmap positive (gset positive)) (s : string) :
  let db' := mkDB (profiles db) (groups db) (group_members db) evs joined (comments db) in
  (check_status db' (set_status s e)).1 = (check_status db e).1 ∧
  (∀ b, (check_status db e).1 = Ok b →
     (check_status db' (set_status s e)).2 = (check_status db e).2).
Proof.
  intros db'.
  assert (Hext : ∀ e0, check_status db' e0 = check_status db e0).
  { intros e0. by apply check_status_ext. }
  rewrite Hext. unfold check_status.
  rewrite (calculate_share_ext db db (set_status s e) e eq_refl eq_refl eq_refl).
  apply check_status_loop_set_status.
Qed.

Lemma check_status_ignores_event_members_witness :
  (check_status (sample_db 100 {[2%positive]}) (set_status "Active" (sample_event 100))).2
    = (check_status (sample_db 100 ∅) (sample_event 100)).2.
Proof.
  apply (check_status_ignores_event_members (sample_db 100 ∅) (sample_event 100)
           (events (sample_db 100 ∅)) {[ 1%positive := {[2%positive]} ]} "Active")
    with (b := true).
  reflexivity.
Defined.

(** ** The sample data *)

Lemma sample_db_profiles spend joined (k : positive) (p : Profile) :
  profiles (sample_db spend joined) !! k = Some p →
  (k = 1%positive ∧ p = sample_profile 1 "ann" 50) ∨
  (k = 2%positive ∧ p = sample_profile 2 "bob" 150) ∨
  (k = 3%positive ∧ p = sample_profile 3 "cat" 500).
Proof.
  intros H. destruct k as [[] | [] |]; vm_compute in H; try discriminate H;
    injection H as <-; auto.
Qed.

Lemma sample_db_unique_nicknames spend joined : unique_nicknames (sample_db spend joined).
Proof.
  intros k1 k2 p1 p2 H1 H2 Hn.
  apply sample_db_profiles in H1 as [[-> ->] | [[-> ->] | [-> ->]]];
    apply sample_db_profiles in H2 as [[-> ->] | [[-> ->] | [-> ->]]];
    done.
Qed.

Lemma sample_db_one_profile_per_user spend joined :
  one_profile_per_user (sample_db spend joined).
Proof.
  intros k1 k2 p1 p2 H1 H2 Hn.
  apply sample_db_profiles in H1 as [[-> ->] | [[-> ->] | [-> ->]]];
    apply sample_db_profiles in H2 as [[-> ->] | [[-> ->] | [-> ->]]];
    done.
Qed.

Lemma sample_db_no_empty_nickname spend joined k p :
  profiles (sample_db spend joined) !! k = Some p → nickname p ≠ "".
Proof.
  intros H. by apply sample_db_profiles in H as [[-> ->] | [[-> ->] | [-> ->]]].
Qed.

(** ** Joining and leaving *)

Lemma join_event_run db request u group_id event_id g e p :
  user request = Some u →
  groups db !! group_id = Some g →
  events db !! event_id = Some e →
  group e = group_id →
  profile_of db u = Some p →
  (calculate_share db e <= max_spend p)%Q →
  u ∉ members_of (event_members db) event_id →
  join_event request group_id event_id db =
    match (check_status db e).1 with
    | Ok _ =>
        (Event_save event_id (check_status db e).2 (members_add event_id u db),
         [joined_event (name e)], Ok (redirect_group_detail group_id))
    | Raise x => (members_add event_id u db, [joined_event (name e)], Raise x)
    end.
Proof.
  intros Hu Hg He Hge Hp Hle Hnot. apply Qlt_bool_false in Hle.
  unfold join_event. unfold_monad. rewrite Hu, Hg, He. simpl.
  destruct (decide (group e = group_id)); [| done]. simpl.
  rewrite Hp. simpl. rewrite Hle. simpl.
  rewrite bool_decide_eq_false_2 by done. simpl.
  change (set_event_members _ db) with (members_add event_id u db).
  rewrite (check_status_ext db (members_add event_id u db) e eq_refl eq_refl).
  by destruct (check_status db e) as [[b | x] e'].
Qed.

Lemma leave_event_run db request u group_id event_id g e :
  user request = Some u →
  groups db !! group_id = Some g →
  events db !! event_id = Some e →
  group e = group_id →
  u ∈ members_of (event_members db) event_id →
  leave_event request group_id event_id db =
    match (check_status db e).1 with
    | Ok _ =>
        (Event_save event_id (check_status db e).2 (members_remove event_id u db),
         [left_event (name e)], Ok (redirect_group_detail group_id))
    | Raise x => (members_remove event_id u db, [left_event (name e)], Raise x)
    end.
Proof.
  intros Hu Hg He Hge Hin.
  unfold leave_event. unfold_monad. rewrite Hu, Hg, He. simpl.
  destruct (decide (group e = group_id)); [| done]. simpl.
  rewrite bool_decide_eq_true_2 by done. simpl.
  change (set_event_members _ db) with (members_remove event_id u db).
  rewrite (check_status_ext db (members_remove event_id u db) e eq_refl eq_refl).
  by destruct (check_status db e) as [[b | x] e'].
Qed.

(** [check_status] returns when every member of the group has a profile. *)
Lemma check_status_returns db e :
  (∀ m, m ∈ members_of (group_members db) (group e) → is_Some (profile_of db m)) →
  ∃ b, (check_status db e).1 = Ok b.
Proof.
  intros H. apply check_status_loop_returns.
  intros m Hm. apply H. by apply elem_of_elements.
Qed.

Lemma check_status_true db e :
  (check_status db e).1 = Ok true ↔
  all_afford db (calculate_share db e) (λ m, m ∈ members_of (group_members db) (group e)).
Proof.
  unfold check_status. rewrite check_status_loop_true. unfold all_afford.
  by setoid_rewrite elem_of_elements.
Qed.

(** X2: a user who has not joined, with a [max_spend] of at least the share,
    joins an event of the group whether or not the user belongs to the
    group: the user becomes a member of the event, nobody else's membership
    and no other event changes, and the event is saved with status "Active"
    when every member of the group can afford the share and "Pending"
    otherwise (all of them have a profile here), its other fields being as
    they were. *)
Theorem join_event_adds_the_requester
    (db : DB) (request : Request) (u group_id event_id : positive)
    (g : Group) (e : Event) (p : Profile) :
  user request = Some u →
  groups db !! group_id = Some g →
  events db !! event_id = Some e →
  group e = group_id →
  profile_of db u = Some p →
  (calculate_share db e <= max_spend p)%Q →
  u ∉ members_of (event_members db) event_id →
  (∀ m, m ∈ members_of (group_members db) group_id → is_Some (profile_of db m)) →
  let out := join_event request group_id event_id db in
  out.1.2 = [joined_event (name e)] ∧
  out.2 = Ok (redirect_group_detail group_id) ∧
  members_of (event_members out.1.1) event_id = members_of (event_members db) event_id ∪ {[u]} ∧
  (∀ k, k ≠ event_id →
     members_of (event_members out.1.1) k = members_of (event_members db) k ∧
     events out.1.1 !! k = events db !! k) ∧
  ∃ e', events out.1.1 !! event_id = Some e' ∧
        (status e' = "Active" ∨ status e' = "Pending") ∧
        (status e' = "Active" ↔
           all_afford db (calculate_share db e)
             (λ m, m ∈ members_of (group_members db) group_id)) ∧
        name e' = name e ∧ date e' = date e ∧
        total_spend e' = total_spend e ∧ group e' = group e.
Proof.
  intros Hu Hg He Hge Hp Hle Hnot Hprofiles out. subst out.
  rewrite (join_event_run db request u group_id event_id g e p) by done.
  destruct (check_status_returns db e) as [b Hb]; [by rewrite Hge |].
  pose proof (check_status_saved db e b Hb) as Hsaved.
  pose proof (check_status_true db e) as Htrue. rewrite Hge in Htrue.
  rewrite Hb, Hsaved. simpl.
  split; [done |]. split; [done |].
  split; [by rewrite members_of_insert, decide_True |].
  split.
  - intros k Hk. by rewrite members_of_insert, decide_False, lookup_insert_ne.
  - exists (set_status (if b then "Active" else "Pending") e). rewrite lookup_insert_eq.
    split; [done |]. rewrite <- Htrue, Hb. destruct b; simpl.
    + split; [by left |]. split; [| done]. done.
    + split; [by right |]. split; [| done]. split; [discriminate | intros [=]].
Qed.

Lemma join_event_adds_the_requester_witness :
  members_of (event_members (join_event (sample_request 3 POST) 1 1 (sample_db 100 ∅)).1.1) 1
    = members_of (event_members (sample_db 100 ∅)) 1 ∪ {[3%positive]}.
Proof.
  apply (join_event_adds_the_requester (sample_db 100 ∅) (sample_request 3 POST) 3 1 1
           (mkGroup "trip" 1) (sample_event 100) (sample_profile 3 "cat" 500));
    try reflexivity.
  - vm_compute. discriminate.
  - vm_compute. discriminate.
  - intros m Hm. vm_compute in Hm.
    destruct m as [[] | [] |]; try discriminate Hm; vm_compute; eauto.
Defined.

(** ** The database after a request, by cases *)

Lemma check_status_event db e :
  ∀ b, (check_status db e).1 = Ok b → ∃ s, (check_status db e).2 = set_status s e.
Proof. intros b Hb. eexists. by apply check_status_saved. Qed.

Lemma join_event_shape db request group_id event_id :
  (join_event request group_id event_id db).1.1 = db ∨
  ∃ u e, user request = Some u ∧ events db !! event_id = Some e ∧ group e = group_id ∧
         (u ∉ members_of (event_members db) event_id) ∧
         ((join_event request group_id event_id db).1.1 = members_add event_id u db ∨
          ∃ s, (join_event request group_id event_id db).1.1
                 = Event_save event_id (set_status s e) (members_add event_id u db)).
Proof.
  destruct (user request) as [u |] eqn:Hu;
    [| left; unfold join_event; unfold_monad; by rewrite Hu].
  destruct (groups db !! group_id) as [g |] eqn:Hg;
    [| left; unfold join_event; unfold_monad; by rewrite Hu, Hg].
  destruct (events db !! event_id) as [e |] eqn:He;
    [| left; unfold join_event; unfold_monad; by rewrite Hu, Hg, He].
  destruct (decide (group e = group_id)) as [Hge | Hge];
    [| left; unfold join_event; unfold_monad; rewrite Hu, Hg, He; simpl;
       by destruct (decide (group e = group_id))].
  destruct (profile_of db u) as [p |] eqn:Hp;
    [| left; unfold join_event; unfold_monad; rewrite Hu, Hg, He; simpl;
       destruct (decide (group e = group_id)); [| done]; simpl; by rewrite Hp].
  destruct (Qlt_bool (max_spend p) (calculate_share db e)) eqn:Hlt.
  { left. unfold join_event. unfold_monad. rewrite Hu, Hg, He. simpl.
    destruct (decide (group e = group_id)); [| done]. simpl. rewrite Hp. simpl.
    by rewrite Hlt. }
  destruct (decide (u ∈ members_of (event_members db) event_id)) as [Hin | Hin].
  { left. by apply (join_event_member_unchanged db request u). }
  right. exists u, e. do 4 (split; [done |]).
  apply Qlt_bool_false in Hlt.
  rewrite (join_event_run db request u group_id event_id g e p) by done.
  destruct (check_status db e).1 as [b | x] eqn:Hb; simpl; [| by left].
  right. destruct (check_status_event db e b Hb) as [s ->]. by exists s.
Qed.

Lemma leave_event_shape db request group_id event_id :
  (leave_event request group_id event_id db).1.1 = db ∨
  ∃ u e, user request = Some u ∧ events db !! event_id = Some e ∧ group e = group_id ∧
         u ∈ members_of (event_members db) event_id ∧
         ((leave_event request group_id event_id db).1.1 = members_remove event_id u db ∨
          ∃ s, (leave_event request group_id event_id db).1.1
                 = Event_save event_id (set_status s e) (members_remove event_id u db)).
Proof.
  destruct (user request) as [u |] eqn:Hu;
    [| left; unfold leave_event; unfold_monad; by rewrite Hu].
  destruct (groups db !! group_id) as [g |] eqn:Hg;
    [| left; unfold leave_event; unfold_monad; by rewrite Hu, Hg].
  destruct (events db !! event_id) as [e |] eqn:He;
    [| left; unfold leave_event; unfold_monad; by rewrite Hu, Hg, He].
  destruct (decide (group e = group_id)) as [Hge | Hge];
    [| left; unfold leave_event; unfold_monad; rewrite Hu, Hg, He; simpl;
       by destruct (decide (group e = group_id))].
  destruct (decide (u ∈ members_of (event_members db) event_id)) as [Hin | Hin];
    [| left; by apply (leave_event_non_member_unchanged db request u)].
  right. exists u, e. do 4 (split; [done |]).
  rewrite (leave_event_run db request u group_id event_id g e) by done.
  destruct (check_status db e).1 as [b | x] eqn:Hb; simpl; [| by left].
  right. destruct (check_status_event db e b Hb) as [s ->]. by exists s.
Qed.

Lemma update_event_status_shape db request group_id event_id :
  (update_event_status request group_id event_id db).1.1 = db ∨
  ∃ e s, events db !! event_id = Some e ∧ group e = group_id ∧
         (update_event_status request group_id event_id db).1.1
           = Event_save event_id (set_status s e) db.
Proof.
  unfold update_event_status. unfold_monad.
  destruct (user request) as [u |]; [| by left]. simpl.
  destruct (groups db !! group_id) as [g |]; [| by left]. simpl.
  destruct (events db !! event_id) as [e |] eqn:He; [| by left]. simpl.
  destruct (decide (group e = group_id)) as [Hge |]; [| by left]. simpl.
  destruct (decide (u ≠ admin g)); [by left |]. simpl.
  destruct (all_can_cover _ _ _) as [[|] | x]; simpl; [| | by left];
    right; eexists e, _; done.
Qed.

Lemma delete_event_shape db request group_id event_id :
  (delete_event request group_id event_id db).1.1 = db ∨
  (delete_event request group_id event_id db).1.1 = Event_delete event_id db.
Proof.
  unfold delete_event. unfold_monad.
  destruct (user request) as [u |]; [| by left]. simpl.
  destruct (groups db !! group_id) as [g |]; [| by left]. simpl.
  destruct (events db !! event_id) as [e |] eqn:He; [| by left]. simpl.
  destruct (decide (group e = group_id)) as [Hge |]; [| by left]. simpl.
  destruct (decide (u ≠ admin g)); [by left | by right].
Qed.

Lemma create_event_shape db request group_id :
  (create_event request group_id db).1.1 = db ∨
  ∃ n d t, (create_event request group_id db).1.1
             = set_events (<[fresh (dom (events db)) := mkEvent n d t "Pending" group_id]>) db.
Proof.
  unfold create_event, Event_create. unfold_monad.
  destruct (user request) as [u |]; [| by left]. simpl.
  destruct (groups db !! group_id) as [g |]; [| by left]. simpl.
  destruct (decide (u ≠ admin g)); [by left |].
  destruct (method request); [by left |].
  destruct (post_date request), (post_total_spend request), (post_name request);
    simpl; try (by left).
  right. by eexists _, _, _.
Qed.

Lemma group_detail_shape db request group_id edit :
  (group_detail request group_id edit db).1.1 = db ∨
  ∃ k c, (group_detail request group_id edit db).1.1 = set_comments (<[k := c]>) db.
Proof.
  assert (Hform : ∀ u k,
    (group_detail_form request u group_id k db).1.1 = db ∨
    ∃ k' c, (group_detail_form request u group_id k db).1.1 = set_comments (<[k' := c]>) db).
  { intros u k. unfold group_detail_form, group_detail_render, Comment_save. unfold_monad.
    destruct (method request); [| destruct (post_comment request)]; simpl;
      try (destruct (event_share_info db u (group_events db group_id)); by left).
    right. destruct k; by eexists _, _. }
  unfold group_detail. unfold_monad.
  destruct (user request) as [u |]; [| by left]. simpl.
  destruct (groups db !! group_id) as [g |]; [| by left]. simpl.
  assert (Hnone := Hform u None).
  destruct edit as [[| comment_id] |];
    try (by destruct (group_detail_form request u group_id None db) as [[d l] r]).
  simpl. destruct (comments db !! comment_id) as [c |]; [| by left]. simpl.
  destruct (decide (comment_user c ≠ u)); [by left |].
  assert (Hsome := Hform u (Some comment_id)).
  by destruct (group_detail_form request u group_id (Some comment_id) db) as [[d l] r].
Qed.

Lemma Profile_save_shape db pk self :
  (Profile_save pk self db).1 = db ∨
  ∃ k, (Profile_save pk self db).1 = set_profiles (<[k := to_row self]>) db.
Proof.
  unfold Profile_save, Model_save_profile.
  destruct (Profile_clean db pk self); [| by left].
  destruct (qs_exists _); [by left |]. right. by eexists.
Qed.

Lemma join_event_already_joined_run db request u group_id event_id g e p :
  user request = Some u →
  groups db !! group_id = Some g →
  events db !! event_id = Some e →
  group e = group_id →
  profile_of db u = Some p →
  (calculate_share db e <= max_spend p)%Q →
  u ∈ members_of (event_members db) event_id →
  join_event request group_id event_id db =
    (db, [already_joined], Ok (redirect_group_detail group_id)).
Proof.
  intros Hu Hg He Hge Hp Hle Hin. apply Qlt_bool_false in Hle.
  unfold join_event. unfold_monad. rewrite Hu, Hg, He. simpl.
  destruct (decide (group e = group_id)); [| done]. simpl.
  rewrite Hp. simpl. rewrite Hle. simpl.
  by rewrite bool_decide_eq_true_2.
Qed.

(** The database after a join that passed the guards: the event row is [e]
    or [e] with another status, and the requester is a member. *)
Lemma join_event_after db request u group_id event_id g e p :
  user request = Some u →
  groups db !! group_id = Some g →
  events db !! event_id = Some e →
  group e = group_id →
  profile_of db u = Some p →
  (calculate_share db e <= max_spend p)%Q →
  u ∉ members_of (event_members db) event_id →
  let db1 := (join_event request group_id event_id db).1.1 in
  profiles db1 = profiles db ∧ groups db1 = groups db ∧
  group_members db1 = group_members db ∧
  event_members db1 = <[event_id := members_of (event_members db) event_id ∪ {[u]}]>
                        (event_members db) ∧
  ∃ e1, events db1 !! event_id = Some e1 ∧ name e1 = name e ∧
        total_spend e1 = total_spend e ∧ group e1 = group e.
Proof.
  intros Hu Hg He Hge Hp Hle Hnot db1. subst db1.
  rewrite (join_event_run db request u group_id event_id g e p) by done.
  destruct (check_status db e).1 as [b | x] eqn:Hb; simpl.
  - do 4 (split; [done |]). rewrite lookup_insert_eq.
    destruct (check_status_event db e b Hb) as [s ->]. by eexists.
  - do 4 (split; [done |]). by exists e.
Qed.

(** X3: after a join that passed the guards, the same request once more is
    answered with "already joined" and changes nothing. *)
Theorem join_event_twice
    (db : DB) (request : Request) (u group_id event_id : positive)
    (g : Group) (e : Event) (p : Profile) :
  user request = Some u →
  groups db !! group_id = Some g →
  events db !! event_id = Some e →
  group e = group_id →
  profile_of db u = Some p →
  (calculate_share db e <= max_spend p)%Q →
  u ∉ members_of (event_members db) event_id →
  let db1 := (join_event request group_id event_id db).1.1 in
  join_event request group_id event_id db1 =
    (db1, [already_joined], Ok (redirect_group_detail group_id)).
Proof.
  intros Hu Hg He Hge Hp Hle Hnot db1.
  destruct (join_event_after db request u group_id event_id g e p)
    as (Hprof & Hgroups & Hmembers & Hjoined & e1 & He1 & _ & Htotal & Hgroup); try done.
  fold db1 in Hprof, Hgroups, Hmembers, Hjoined, He1.
  apply (join_event_already_joined_run db1 request u group_id event_id g e1 p).
  - done.
  - by rewrite Hgroups.
  - done.
  - by rewrite Hgroup.
  - by rewrite (profile_of_ext db db1 u Hprof).
  - by rewrite (calculate_share_ext db db1 e e1 Hmembers Htotal Hgroup).
  - rewrite Hjoined, members_of_insert, decide_True by done.
    apply elem_of_union_r. by apply elem_of_singleton.
Qed.

Lemma join_event_twice_witness :
  let db1 := (join_event (sample_request 2 POST) 1 1 (sample_db 100 ∅)).1.1 in
  join_event (sample_request 2 POST) 1 1 db1 =
    (db1, [already_joined], Ok (redirect_group_detail 1)).
Proof.
  apply (join_event_twice (sample_db 100 ∅) (sample_request 2 POST) 2 1 1
           (mkGroup "trip" 1) (sample_event 100) (sample_profile 2 "bob" 150));
    try reflexivity.
  - vm_compute. discriminate.
  - vm_compute. discriminate.
Defined.

(** X4: leaving after a join that passed the guards is accepted and gives
    every event the members it had before the join. *)
Theorem join_then_leave_restores_members
    (db : DB) (request : Request) (u group_id event_id : positive)
    (g : Group) (e : Event) (p : Profile) :
  user request = Some u →
  groups db !! group_id = Some g →
  events db !! event_id = Some e →
  group e = group_id →
  profile_of db u = Some p →
  (calculate_share db e <= max_spend p)%Q →
  u ∉ members_of (event_members db) event_id →
  let db1 := (join_event request group_id event_id db).1.1 in
  let out := leave_event request group_id event_id db1 in
  out.1.2 = [left_event (name e)] ∧
  ∀ k, members_of (event_members out.1.1) k = members_of (event_members db) k.
Proof.
  intros Hu Hg He Hge Hp Hle Hnot db1 out.
  destruct (join_event_after db request u group_id event_id g e p)
    as (Hprof & Hgroups & Hmembers & Hjoined & e1 & He1 & Hname & Htotal & Hgroup); try done.
  fold db1 in Hprof, Hgroups, Hmembers, Hjoined, He1.
  assert (Hin : u ∈ members_of (event_members db1) event_id).
  { rewrite Hjoined, members_of_insert, decide_True by done.
    apply elem_of_union_r. by apply elem_of_singleton. }
  assert (Hrun := leave_event_run db1 request u group_id event_id g e1 Hu).
  rewrite Hgroups in Hrun. specialize (Hrun Hg He1). rewrite Hgroup in Hrun.
  specialize (Hrun Hge Hin).
  assert (Hrestored : ∀ k, members_of (event_members (members_remove event_id u db1)) k
                            = members_of (event_members db) k).
  { intros k. simpl. rewrite Hjoined, !members_of_insert.
    destruct (decide (event_id = k)) as [<- |]; [| done].
    rewrite decide_True by done. apply set_eq. intros x.
    rewrite elem_of_difference, elem_of_union, elem_of_singleton.
    split; [intros [[? | ?] ?]; done |]. intros Hx. split; [by left |].
    intros ->. done. }
  subst out. rewrite Hrun, Hname.
  destruct (check_status db1 e1).1 as [b | x]; simpl; (split; [done |]); apply Hrestored.
Qed.

Lemma join_then_leave_restores_members_witness :
  let db1 := (join_event (sample_request 2 POST) 1 1 (sample_db 100 ∅)).1.1 in
  members_of (event_members (leave_event (sample_request 2 POST) 1 1 db1).1.1) 1
    = members_of (event_members (sample_db 100 ∅)) 1.
Proof.
  apply (join_then_leave_restores_members (sample_db 100 ∅) (sample_request 2 POST) 2 1 1
           (mkGroup "trip" 1) (sample_event 100) (sample_profile 2 "bob" 150));
    try reflexivity.
  - vm_compute. discriminate.
  - vm_compute. discriminate.
Defined.





(** X6: a member of the event leaves an event of the group: the user is no
    longer a member, nobody else's membership and no other event changes,
    and the event is saved with status "Active" when every member of the
    group can afford the share and "Pending" otherwise (all of them have a
    profile here), its other fields being as they were. *)
Theorem leave_event_removes_the_requester
    (db : DB) (request : Request) (u group_id event_id : positive)
    (g : Group) (e : Event) :
  user request = Some u →
  groups db !! group_id = Some g →
  events db !! event_id = Some e →
  group e = group_id →
  u ∈ members_of (event_members db) event_id →
  (∀ m, m ∈ members_of (group_members db) group_id → is_Some (profile_of db m)) →
  let out := leave_event request group_id event_id db in
  out.1.2 = [left_event (name e)] ∧
  out.2 = Ok (redirect_group_detail group_id) ∧
  members_of (event_members out.1.1) event_id = members_of (event_members db) event_id ∖ {[u]} ∧
  (∀ k, k ≠ event_id →
     members_of (event_members out.1.1) k = members_of (event_members db) k ∧
     events out.1.1 !! k = events db !! k) ∧
  ∃ e', events out.1.1 !! event_id = Some e' ∧
        (status e' = "Active" ∨ status e' = "Pending") ∧
        (status e' = "Active" ↔
           all_afford db (calculate_share db e)
             (λ m, m ∈ members_of (group_members db) group_id)) ∧
        name e' = name e ∧ date e' = date e ∧
        total_spend e' = total_spend e ∧ group e' = group e.
Proof.
  intros Hu Hg He Hge Hin Hprofiles out. subst out.
  rewrite (leave_event_run db request u group_id event_id g e) by done.
  destruct (check_status_returns db e) as [b Hb]; [by rewrite Hge |].
  pose proof (check_status_saved db e b Hb) as Hsaved.
  pose proof (check_status_true db e) as Htrue. rewrite Hge in Htrue.
  rewrite Hb, Hsaved. simpl.
  split; [done |]. split; [done |].
  split; [by rewrite members_of_insert, decide_True |].
  split.
  - intros k Hk. by rewrite members_of_insert, decide_False, lookup_insert_ne.
  - exists (set_status (if b then "Active" else "Pending") e). rewrite lookup_insert_eq.
    split; [done |]. rewrite <- Htrue, Hb. destruct b; simpl.
    + split; [by left |]. split; [| done]. done.
    + split; [by right |]. split; [| done]. split; [discriminate | intros [=]].
Qed.

Lemma leave_event_removes_the_requester_witness :
  members_of (event_members
                (leave_event (sample_request 2 POST) 1 1 (sample_db 100 {[2%positive]})).1.1) 1
    = members_of (event_members (sample_db 100 {[2%positive]})) 1 ∖ {[2%positive]}.
Proof.
  apply (leave_event_removes_the_requester (sample_db 100 {[2%positive]})
           (sample_request 2 POST) 2 1 1 (mkGroup "trip" 1) (sample_event 100));
    try reflexivity.
  intros m Hm. vm_compute in Hm.
  destruct m as [[] | [] |]; try discriminate Hm; vm_compute; eauto.
Defined.

(** ** Requests that find nothing *)

(** X7: a group that does not exist ends every handler with a 404, and an
    event that does not exist, or that belongs to another group than the one
    of the URL, ends [join_event], [leave_event], [update_event_status] and
    [delete_event] with a 404, also for the admin of the group of the URL;
    nothing is changed and no message is queued. *)
Theorem not_found_changes_nothing
    (db : DB) (request : Request) (u group_id event_id : positive) :
  user request = Some u →
  (groups db !! group_id = None →
     create_event request group_id db = (db, [], Raise Http404) ∧
     ∀ edit, group_detail request group_id edit db = (db, [], Raise Http404)) ∧
  (groups db !! group_id = None ∨
   (∀ e, events db !! event_id = Some e → group e ≠ group_id) →
     join_event request group_id event_id db = (db, [], Raise Http404) ∧
     leave_event request group_id event_id db = (db, [], Raise Http404) ∧
     update_event_status request group_id event_id db = (db, [], Raise Http404) ∧
     delete_event request group_id event_id db = (db, [], Raise Http404)).
Proof.
  intros Hu. split.
  - intros Hg. unfold create_event, group_detail. unfold_monad. by rewrite Hu, Hg.
  - intros Hmiss.
    unfold join_event, leave_event, update_event_status, delete_event. unfold_monad.
    rewrite Hu. simpl.
    destruct (groups db !! group_id) as [g |] eqn:Hg; [| done]. simpl.
    destruct Hmiss as [Hmiss | Hmiss]; [done |].
    destruct (events db !! event_id) as [e |]; [| done]. simpl.
    specialize (Hmiss e eq_refl).
    by destruct (decide (group e = group_id)).
Qed.

Lemma not_found_changes_nothing_witness :
  join_event (sample_request 1 POST) 1 2 (sample_db 100 ∅)
    = (sample_db 100 ∅, [], Raise Http404) ∧
  leave_event (sample_request 1 POST) 1 2 (sample_db 100 ∅)
    = (sample_db 100 ∅, [], Raise Http404) ∧
  update_event_status (sample_request 1 POST) 1 2 (sample_db 100 ∅)
    = (sample_db 100 ∅, [], Raise Http404) ∧
  delete_event (sample_request 1 POST) 1 2 (sample_db 100 ∅)
    = (sample_db 100 ∅, [], Raise Http404).
Proof.
  apply (not_found_changes_nothing (sample_db 100 ∅) (sample_request 1 POST) 1 1 2 eq_refl).
  right. intros e He. vm_compute in He. discriminate He.
Defined.

(** ** Events created, deleted and updated by the admin *)



(** X9: a POST of the group's admin that lacks the name, the date or the
    total, or whose date or total does not convert, ends with an exception:
    no event is created and no message is queued. *)
Theorem create_event_incomplete_raises
    (db : DB) (request : Request) (group_id : positive) (g : Group) :
  user request = Some (admin g) →
  groups db !! group_id = Some g →
  method request = POST →
  (post_name request = None ∨
   (∀ d, post_date request ≠ value d) ∨
   (∀ t, post_total_spend request ≠ value t)) →
  ∃ x, create_event request group_id db = (db, [], Raise x).
Proof.
  intros Hu Hg Hm Hbad.
  unfold create_event, Event_create. unfold_monad. rewrite Hu, Hg. simpl.
  destruct (decide (admin g ≠ admin g)); [done |].
  rewrite Hm.
  destruct (post_date request) as [| | d] eqn:Hd,
           (post_total_spend request) as [| | t] eqn:Ht,
           (post_name request) as [nm |] eqn:Hn; simpl; try (by eexists).
  destruct Hbad as [Hbad | [Hbad | Hbad]]; [done | by destruct (Hbad d) | by destruct (Hbad t)].
Qed.

Lemma create_event_incomplete_raises_witness :
  ∃ x, create_event (sample_request 1 POST) 1 (sample_db 100 ∅)
       = (sample_db 100 ∅, [], Raise x).
Proof.
  apply (create_event_incomplete_raises (sample_db 100 ∅) (sample_request 1 POST) 1
           (mkGroup "trip" 1)); try reflexivity.
  left. reflexivity.
Defined.

Lemma Event_save_twice k e db :
  Event_save k e (Event_save k e db) = Event_save k e db.
Proof. unfold Event_save, set_events. simpl. by rewrite insert_insert_eq. Qed.

Lemma all_can_cover_ext db db' share (l : list positive) :
  profiles db' = profiles db →
  all_can_cover db' share l = all_can_cover db share l.
Proof.
  intros Hp. induction l as [| m l IH]; simpl; [done |].
  rewrite (profile_of_ext db db' m Hp).
  destruct (profile_of db m) as [p |]; [| done].
  by destruct (Qle_bool share (max_spend p)).
Qed.

(** X10: [update_event_status] is idempotent: the same request on the
    database that it left gives the same messages and the same response, and
    leaves that database as it is. *)
Theorem update_event_status_idempotent
    (db : DB) (request : Request) (group_id event_id : positive) :
  let out := update_event_status request group_id event_id db in
  update_event_status request group_id event_id out.1.1 = out.
Proof.
  intros out. subst out.
  assert (Hsame : ∀ ms r, update_event_status request group_id event_id db = (db, ms, r) →
            update_event_status request group_id event_id
              (update_event_status request group_id event_id db).1.1
            = update_event_status request group_id event_id db).
  { intros ms r Hrun. rewrite Hrun at 1. simpl. by rewrite Hrun. }
  destruct (user request) as [u |] eqn:Hu;
    [| eapply Hsame; unfold update_event_status; unfold_monad; by rewrite Hu].
  destruct (groups db !! group_id) as [g |] eqn:Hg;
    [| eapply Hsame; unfold update_event_status; unfold_monad; by rewrite Hu, Hg].
  destruct (events db !! event_id) as [e |] eqn:He;
    [| eapply Hsame; unfold update_event_status; unfold_monad; by rewrite Hu, Hg, He].
  destruct (decide (group e = group_id)) as [Hge | Hge];
    [| apply (Hsame [] (Raise Http404));
       unfold update_event_status; unfold_monad; rewrite Hu, Hg, He; simpl;
       by destruct (decide (group e = group_id))].
  destruct (decide (u = admin g)) as [-> | Hna].
  - rewrite (update_event_status_admin db request group_id event_id g e) by done.
    destruct (all_can_cover db (calculate_share db e)
                (elements (members_of (group_members db) group_id))) as [b | x] eqn:Hb;
      [| simpl; rewrite (update_event_status_admin db request group_id event_id g e) by done;
         by rewrite Hb].
    assert (Hagain : ∀ s,
      all_can_cover (Event_save event_id (set_status s e) db)
        (calculate_share (Event_save event_id (set_status s e) db) (set_status s e))
        (elements (members_of (group_members (Event_save event_id (set_status s e) db))
                     group_id)) = Ok b).
    { intros s. rewrite <- Hb. by apply all_can_cover_ext. }
    destruct b; simpl.
    + rewrite (update_event_status_admin _ request group_id event_id g
                 (set_status "Active" e)); [| done | done | apply lookup_insert_eq | done].
      rewrite Hagain. simpl. change (set_events _ db) with (Event_save event_id (set_status "Active" e) db).
      change (set_status "Active" (set_status "Active" e)) with (set_status "Active" e).
      by rewrite Event_save_twice.
    + rewrite (update_event_status_admin _ request group_id event_id g
                 (set_status "Pending" e)); [| done | done | apply lookup_insert_eq | done].
      rewrite Hagain. simpl. change (set_events _ db) with (Event_save event_id (set_status "Pending" e) db).
      change (set_status "Pending" (set_status "Pending" e)) with (set_status "Pending" e).
      by rewrite Event_save_twice.
  - apply (Hsame [only_admin_can_update] (Ok (redirect_group_detail group_id))).
    unfold update_event_status. unfold_monad. rewrite Hu, Hg, He. simpl.
    destruct (decide (group e = group_id)); [| done]. simpl.
    by destruct (decide (u ≠ admin g)).
Qed.

Lemma event_not_found_run db request u group_id event_id :
  user request = Some u →
  events db !! event_id = None →
  join_event request group_id event_id db = (db, [], Raise Http404) ∧
  leave_event request group_id event_id db = (db, [], Raise Http404) ∧
  update_event_status request group_id event_id db = (db, [], Raise Http404) ∧
  delete_event request group_id event_id db = (db, [], Raise Http404).
Proof.
  intros Hu He.
  unfold join_event, leave_event, update_event_status, delete_event. unfold_monad.
  rewrite Hu. simpl. destruct (groups db !! group_id); [| done]. simpl.
  by rewrite He.
Qed.

(** X11: [delete_event] by the group's admin removes the event and its
    membership rows and nothing else: every other event keeps its row and
    its members, and a later request of any user on the deleted event ends
    with a 404 and changes nothing. *)
Theorem delete_event_removes_event
    (db : DB) (request : Request) (group_id event_id : positive) (g : Group) (e : Event) :
  user request = Some (admin g) →
  groups db !! group_id = Some g →
  events db !! event_id = Some e →
  group e = group_id →
  let out := delete_event request group_id event_id db in
  out.1.2 = [event_deleted (name e)] ∧
  out.2 = Ok (redirect_group_detail group_id) ∧
  events out.1.1 !! event_id = None ∧
  members_of (event_members out.1.1) event_id = ∅ ∧
  (∀ k, k ≠ event_id →
     events out.1.1 !! k = events db !! k ∧
     members_of (event_members out.1.1) k = members_of (event_members db) k) ∧
  (∀ request' u' group_id', user request' = Some u' →
     join_event request' group_id' event_id out.1.1 = (out.1.1, [], Raise Http404) ∧
     leave_event request' group_id' event_id out.1.1 = (out.1.1, [], Raise Http404) ∧
     update_event_status request' group_id' event_id out.1.1 = (out.1.1, [], Raise Http404) ∧
     delete_event request' group_id' event_id out.1.1 = (out.1.1, [], Raise Http404)).
Proof.
  intros Hu Hg He Hge out.
  assert (Hrun : out = (Event_delete event_id db, [event_deleted (name e)],
                        Ok (redirect_group_detail group_id))).
  { subst out. unfold delete_event. unfold_monad. rewrite Hu, Hg, He. simpl.
    destruct (decide (group e = group_id)); [| done]. simpl.
    by destruct (decide (admin g ≠ admin g)). }
  rewrite Hrun. simpl.
  split; [done |]. split; [done |].
  split; [apply lookup_delete_eq |].
  split; [by rewrite members_of_delete, decide_True |].
  split.
  - intros k Hk. by rewrite lookup_delete_ne, members_of_delete, decide_False.
  - intros request' u' group_id' Hu'.
    apply (event_not_found_run _ request' u' group_id' event_id Hu').
    apply lookup_delete_eq.
Qed.

Lemma delete_event_removes_event_witness :
  events (delete_event (sample_request 1 POST) 1 1 (sample_db 100 {[2%positive]})).1.1
    !! 1%positive = None.
Proof.
  apply (delete_event_removes_event (sample_db 100 {[2%positive]}) (sample_request 1 POST)
           1 1 (mkGroup "trip" 1) (sample_event 100)); reflexivity.
Defined.

(** ** What no request changes *)

(** X12: no call changes a group or the members of a group, so the share of
    any event is the same before and after it; only [Profile.save] changes a
    profile, only [group_detail] changes a comment, and neither of the two
    changes an event or the members of an event. *)
Theorem requests_keep_groups_and_shares (c : Call) (db : DB) :
  groups (run c db) = groups db ∧
  group_members (run c db) = group_members db ∧
  (∀ e, calculate_share (run c db) e = calculate_share db e) ∧
  match c with
  | call_Profile_save _ _ =>
      comments (run c db) = comments db ∧
      events (run c db) = events db ∧ event_members (run c db) = event_members db
  | call_group_detail _ _ _ =>
      profiles (run c db) = profiles db ∧
      events (run c db) = events db ∧ event_members (run c db) = event_members db
  | _ => profiles (run c db) = profiles db ∧ comments (run c db) = comments db
  end.
Proof.
  destruct c as [r g ed | r g | r g k | r g k | r g k | r g k | pk self]; simpl.
  - destruct (group_detail_shape db r g ed) as [-> | (k & c & ->)]; by repeat split.
  - destruct (create_event_shape db r g) as [-> | (n & d & t & ->)]; by repeat split.
  - destruct (join_event_shape db r g k)
      as [-> | (u & e & _ & _ & _ & _ & [-> | [s ->]])]; by repeat split.
  - destruct (update_event_status_shape db r g k) as [-> | (e & s & _ & _ & ->)]; by repeat split.
  - destruct (leave_event_shape db r g k)
      as [-> | (u & e & _ & _ & _ & _ & [-> | [s ->]])]; by repeat split.
  - destruct (delete_event_shape db r g k) as [-> | ->]; by repeat split.
  - destruct (Profile_save_shape db pk self) as [-> | [k ->]]; by repeat split.
Qed.

(** X13: a call changes nothing of an event but its status: an event that is
    there before and after the call has the name, the date, the total and
    the group it had. *)
Theorem requests_change_only_status (c : Call) (db : DB) (k : positive) (e e' : Event) :
  events db !! k = Some e →
  events (run c db) !! k = Some e' →
  e' = set_status (status e') e.
Proof.
  intros He He'.
  assert (Hid : ∀ e0 : Event, e0 = set_status (status e0) e0) by (by intros []).
  assert (Hsame : events db !! k = Some e' → e' = set_status (status e') e).
  { intros H. rewrite He in H. injection H as ->. apply Hid. }
  assert (Hsaved : ∀ k0 e0 s db0, events db0 = events db → events db !! k0 = Some e0 →
            events (Event_save k0 (set_status s e0) db0) !! k = Some e' →
            e' = set_status (status e') e).
  { intros k0 e0 s db0 Hdb0 He0 H. simpl in H. rewrite Hdb0, lookup_insert in H.
    destruct (decide (k0 = k)) as [-> |]; [| by apply Hsame].
    injection H as <-. rewrite He in He0. by injection He0 as ->. }
  destruct c as [r g ed | r g | r g k0 | r g k0 | r g k0 | r g k0 | pk self]; simpl in He'.
  - destruct (group_detail_shape db r g ed) as [Hs | (k1 & c & Hs)];
      rewrite Hs in He'; by apply Hsame.
  - destruct (create_event_shape db r g) as [Hs | (n & d & t & Hs)];
      rewrite Hs in He'; [by apply Hsame |].
    simpl in He'. rewrite lookup_insert_ne in He'; [by apply Hsame |].
    intros <-. pose proof (is_fresh (dom (events db))) as Hfresh.
    apply Hfresh, elem_of_dom. by eexists.
  - destruct (join_event_shape db r g k0)
      as [Hs | (u & e0 & _ & He0 & _ & _ & [Hs | [s Hs]])]; rewrite Hs in He'.
    + by apply Hsame.
    + by apply Hsame.
    + by apply (Hsaved k0 e0 s (members_add k0 u db)).
  - destruct (update_event_status_shape db r g k0) as [Hs | (e0 & s & He0 & _ & Hs)];
      rewrite Hs in He'; [by apply Hsame |].
    by apply (Hsaved k0 e0 s db).
  - destruct (leave_event_shape db r g k0)
      as [Hs | (u & e0 & _ & He0 & _ & _ & [Hs | [s Hs]])]; rewrite Hs in He'.
    + by apply Hsame.
    + by apply Hsame.
    + by apply (Hsaved k0 e0 s (members_remove k0 u db)).
  - destruct (delete_event_shape db r g k0) as [Hs | Hs]; rewrite Hs in He';
      [by apply Hsame |].
    simpl in He'. rewrite lookup_delete in He'.
    destruct (decide (k0 = k)); [done | by apply Hsame].
  - destruct (Profile_save_shape db pk self) as [Hs | [k1 Hs]]; rewrite Hs in He';
      by apply Hsame.
Qed.

Lemma requests_change_only_status_witness :
  set_status "Active" (sample_event 100)
    = set_status (status (set_status "Active" (sample_event 100))) (sample_event 100).
Proof.
  apply (requests_change_only_status (call_join_event (sample_request 2 POST) 1 1)
           (sample_db 100 ∅) 1 (sample_event 100) (set_status "Active" (sample_event 100)));
    vm_compute; reflexivity.
Defined.

(** X14: [join_event] and [leave_event] change the membership of the
    requesting user in the event of the URL and no other: whatever the
    request and however it ends, every other user is a member of the event,
    and every user a member of any other event, exactly as before. *)
Theorem only_the_requester_joins_or_leaves
    (db : DB) (request : Request) (group_id event_id k v : positive) :
  k ≠ event_id ∨ user request ≠ Some v →
  (v ∈ members_of (event_members (join_event request group_id event_id db).1.1) k ↔
   v ∈ members_of (event_members db) k) ∧
  (v ∈ members_of (event_members (leave_event request group_id event_id db).1.1) k ↔
   v ∈ members_of (event_members db) k).
Proof.
  intros Hother.
  assert (Hadd : ∀ u, user request = Some u →
            (v ∈ members_of (event_members (members_add event_id u db)) k ↔
             v ∈ members_of (event_members db) k)).
  { intros u Hu. simpl. rewrite members_of_insert.
    destruct (decide (event_id = k)) as [<- |]; [| done].
    rewrite elem_of_union, elem_of_singleton.
    destruct Hother as [? | Hne]; [done |].
    split; [| by left]. intros [? | ->]; [done |]. by rewrite Hu in Hne. }
  assert (Hrem : ∀ u, user request = Some u →
            (v ∈ members_of (event_members (members_remove event_id u db)) k ↔
             v ∈ members_of (event_members db) k)).
  { intros u Hu. simpl. rewrite members_of_insert.
    destruct (decide (event_id = k)) as [<- |]; [| done].
    rewrite elem_of_difference, elem_of_singleton.
    destruct Hother as [? | Hne]; [done |].
    split; [by intros [? _] |]. intros Hv. split; [done |].
    intros ->. by rewrite Hu in Hne. }
  split.
  - destruct (join_event_shape db request group_id event_id)
      as [-> | (u & e & Hu & _ & _ & _ & [-> | [s ->]])]; [done | by apply Hadd |].
    by apply Hadd.
  - destruct (leave_event_shape db request group_id event_id)
      as [-> | (u & e & Hu & _ & _ & _ & [-> | [s ->]])]; [done | by apply Hrem |].
    by apply Hrem.
Qed.

Lemma only_the_requester_joins_or_leaves_witness :
  1%positive ∈ members_of (event_members
                             (join_event (sample_request 2 POST) 1 1
                                (sample_db 100 {[1%positive]})).1.1) 1 ↔
  1%positive ∈ members_of (event_members (sample_db 100 {[1%positive]})) 1.
Proof.
  refine (proj1 (only_the_requester_joins_or_leaves (sample_db 100 {[1%positive]})
                   (sample_request 2 POST) 1 1 1 1 _)).
  right. discriminate.
Defined.

(** ** Profiles *)

Lemma profile_entry_of_Some db u k p :
  profile_entry_of db u = Some (k, p) → profiles db !! k = Some p ∧ profile_user p = u.
Proof.
  unfold profile_entry_of. intros H.
  destruct (list_find _ _) as [[i [k' p']] |] eqn:Hfind; [| done].
  simpl in H. injection H as -> ->.
  apply list_find_Some in Hfind as (Hi & Hu & _). split; [| done].
  apply elem_of_map_to_list. by eapply list_elem_of_lookup_2.
Qed.

Lemma profile_entry_of_None db u :
  profile_entry_of db u = None ↔ ∀ k p, profiles db !! k = Some p → profile_user p ≠ u.
Proof.
  unfold profile_entry_of. rewrite fmap_None, list_find_None, Forall_forall. split.
  - intros H k p Hk. apply (H (k, p)). by apply elem_of_map_to_list.
  - intros H [k p] Hk. apply (H k p). by apply elem_of_map_to_list.
Qed.

Lemma profile_of_entry db u : profile_of db u = snd <$> profile_entry_of db u.
Proof.
  unfold profile_of, profile_entry_of. by destruct (list_find _ _) as [[i [k p]] |].
Qed.

Lemma profile_of_Some db u p :
  profile_of db u = Some p → ∃ k, profiles db !! k = Some p ∧ profile_user p = u.
Proof.
  rewrite profile_of_entry. destruct (profile_entry_of db u) as [[k p'] |] eqn:H; [| done].
  intros [= ->]. exists k. by apply profile_entry_of_Some.
Qed.

Lemma profile_of_None db u :
  profile_of db u = None ↔ ∀ k p, profiles db !! k = Some p → profile_user p ≠ u.
Proof. rewrite profile_of_entry, fmap_None. apply profile_entry_of_None. Qed.

Lemma profile_of_stored db k p :
  one_profile_per_user db → profiles db !! k = Some p →
  profile_of db (profile_user p) = Some p.
Proof.
  intros Hone Hk. destruct (profile_of db (profile_user p)) as [p' |] eqn:Hp.
  - apply profile_of_Some in Hp as (k' & Hk' & Hu).
    assert (k' = k) as -> by (by eapply Hone). congruence.
  - exfalso. by eapply (proj1 (profile_of_None db (profile_user p)) Hp k p).
Qed.

Lemma unique_nicknames_Profile_save db pk self :
  unique_nicknames db → unique_nicknames (Profile_save pk self db).1.
Proof.
  intros Huniq. unfold Profile_save.
  destruct (Profile_clean db pk self) as [[] | x] eqn:Hclean; [| done].
  pose proof (proj1 (Profile_clean_Ok db pk self) Hclean) as Hfree.
  unfold Model_save_profile.
  destruct (save_key_cases db pk) as (k0 & -> & Hk0).
  destruct (qs_exists (same_user_others db k0 self)); [done |].
  intros k1 k2 p1 p2. simpl. rewrite !lookup_insert.
  assert (Hold : ∀ k p, k0 ≠ k → profiles db !! k = Some p → nickname p ≠ nickname self).
  { intros k p Hne Hk. apply (Hfree k p Hk).
    destruct Hk0 as [-> | [-> _]]; congruence. }
  destruct (decide (k0 = k1)) as [<- |], (decide (k0 = k2)) as [<- |]; try done.
  - intros [= <-] H2 Hn. exfalso. by eapply (Hold k2 p2).
  - intros H1 [= <-] Hn. exfalso. by eapply (Hold k1 p1).
  - apply Huniq.
Qed.

Lemma run_keeps_profiles c db :
  match c with
  | call_Profile_save _ _ => True
  | _ => profiles (run c db) = profiles db
  end.
Proof.
  destruct c as [r g ed | r g | r g k | r g k | r g k | r g k | pk self]; simpl; [.. | done].
  - by destruct (group_detail_shape db r g ed) as [-> | (k & c & ->)].
  - by destruct (create_event_shape db r g) as [-> | (n & d & t & ->)].
  - by destruct (join_event_shape db r g k)
      as [-> | (u & e & _ & _ & _ & _ & [-> | [s ->]])].
  - by destruct (update_event_status_shape db r g k) as [-> | (e & s & _ & _ & ->)].
  - by destruct (leave_event_shape db r g k)
      as [-> | (u & e & _ & _ & _ & _ & [-> | [s ->]])].
  - by destruct (delete_event_shape db r g k) as [-> | ->].
Qed.

(** X15: [Profile.save] keeps the nicknames of the stored profiles distinct:
    if no two profiles have the same nickname, none have after any sequence
    of calls of the handlers and of [Profile.save]. *)
Theorem nicknames_stay_unique (cs : list Call) (db : DB) :
  unique_nicknames db → unique_nicknames (run_all cs db).
Proof.
  revert db. induction cs as [| c cs IH]; intros db Huniq; [done |].
  simpl. apply IH.
  pose proof (run_keeps_profiles c db) as Hkeep.
  destruct c; try (unfold unique_nicknames; by rewrite Hkeep).
  by apply unique_nicknames_Profile_save.
Qed.

Lemma nicknames_stay_unique_witness :
  unique_nicknames
    (run_all [call_Profile_save None (sample_profile 4 "dan" 80);
              call_Profile_save None (sample_profile 5 "dan" 90)] (sample_db 100 ∅)).
Proof.
  apply (nicknames_stay_unique
           [call_Profile_save None (sample_profile 4 "dan" 80);
            call_Profile_save None (sample_profile 5 "dan" 90)] (sample_db 100 ∅)).
  apply sample_db_unique_nicknames.
Defined.

Lemma set_profiles_id db k p :
  profiles db !! k = Some p → set_profiles (<[k := p]>) db = db.
Proof. intros Hk. destruct db. unfold set_profiles. simpl in *. by rewrite insert_id. Qed.

Lemma Profile_save_written db pk self :
  Profile_clean db pk self = Ok tt →
  (∀ k' p, profiles db !! k' = Some p →
     k' ≠ match pk with
          | Some k => k
          | None => fresh (dom (profiles db))
          end →
     profile_user p ≠ profile_user self) →
  Profile_save pk self db =
    (set_profiles (<[match pk with
                     | Some k => k
                     | None => fresh (dom (profiles db))
                     end := to_row self]>) db, Ok tt).
Proof.
  intros Hclean Hfree. unfold Profile_save, Model_save_profile. rewrite Hclean.
  destruct (qs_exists (same_user_others db _ self)) eqn:Hex; [| done].
  exfalso. apply qs_exists_true in Hex as (k' & p & H).
  apply same_user_others_lookup in H as (Hk' & Hne & Hu). by eapply Hfree.
Qed.

Lemma to_row_fields (self : Profile) :
  profile_user (to_row self) = profile_user self ∧
  first_name (to_row self) = first_name self ∧
  surname (to_row self) = surname self ∧
  nickname (to_row self) = nickname self ∧
  at_two_places (max_spend self) (max_spend (to_row self)) ∧
  at_two_places (balance self) (balance (to_row self)).
Proof. do 4 (split; [done |]). split; apply quantize_at_two_places. Qed.

(** X16: saving the stored profile of a user with other values, with a
    nickname that no other profile has, succeeds, and the profile that the
    handlers read for the user afterwards is the saved one, its [max_spend]
    and [balance] at the two places of the field (the saved amounts
    themselves when they have two places); the profile read for any other
    user is the one read before. *)
Theorem saved_profile_is_read (db : DB) (k : positive) (p0 self : Profile) :
  one_profile_per_user db →
  profiles db !! k = Some p0 →
  profile_user self = profile_user p0 →
  (∀ k' p, profiles db !! k' = Some p → k' ≠ k → nickname p ≠ nickname self) →
  let out := Profile_save (Some k) self db in
  out.2 = Ok tt ∧
  (∃ row, profile_of out.1 (profile_user self) = Some row ∧
          profiles out.1 !! k = Some row ∧
          profile_user row = profile_user self ∧ first_name row = first_name self ∧
          surname row = surname self ∧ nickname row = nickname self ∧
          at_two_places (max_spend self) (max_spend row) ∧
          at_two_places (balance self) (balance row)) ∧
  ∀ u, u ≠ profile_user self → profile_of out.1 u = profile_of db u.
Proof.
  intros Hone Hk Huser Hfree out.
  assert (Hclean : Profile_clean db (Some k) self = Ok tt).
  { apply Profile_clean_Ok. intros k' p Hk' Hne. apply (Hfree k' p Hk'). congruence. }
  assert (Hout : out = (set_profiles (<[k := to_row self]>) db, Ok tt)).
  { subst out. apply (Profile_save_written db (Some k) self Hclean).
    intros k' p Hk' Hne Hu. apply Hne. apply (Hone k' k p p0); congruence. }
  rewrite Hout. simpl. clear Hout out.
  set (db' := set_profiles (<[k := to_row self]>) db).
  assert (Hone' : one_profile_per_user db').
  { intros k1 k2 p1 p2. simpl. rewrite !lookup_insert.
    destruct (decide (k = k1)) as [<- |], (decide (k = k2)) as [<- |]; try done.
    - intros [= <-] H2 Hu. apply (Hone k k2 p0 p2); [done | done |]. simpl in Hu. congruence.
    - intros H1 [= <-] Hu. apply (Hone k1 k p1 p0); [done | done |]. simpl in Hu. congruence.
    - apply Hone. }
  split; [done |]. split.
  - exists (to_row self). split.
    + apply (profile_of_stored db' k (to_row self) Hone'). apply lookup_insert_eq.
    + split; [apply lookup_insert_eq | apply to_row_fields].
  - intros u Hu. destruct (profile_of db u) as [p |] eqn:Hp.
    + apply profile_of_Some in Hp as (k1 & Hk1 & <-).
      apply (profile_of_stored db' k1 p Hone'). simpl.
      rewrite lookup_insert_ne; [done |]. intros <-. congruence.
    + apply profile_of_None. intros k1 p. simpl. rewrite lookup_insert.
      destruct (decide (k = k1)) as [<- |].
      * intros [= <-]. simpl. congruence.
      * by apply (proj1 (profile_of_None db u) Hp).
Qed.

Lemma saved_profile_is_read_witness :
  ∃ row,
    profile_of (Profile_save (Some 1%positive) (sample_profile 1 "ann" (33335 # 1000))
                  (sample_db 100 ∅)).1 1 = Some row ∧
    at_two_places (33335 # 1000) (max_spend row).
Proof.
  destruct (saved_profile_is_read (sample_db 100 ∅) 1 (sample_profile 1 "ann" 50)
              (sample_profile 1 "ann" (33335 # 1000)))
    as (_ & (row & Hread & _ & _ & _ & _ & _ & Hspend & _) & _).
  - apply sample_db_one_profile_per_user.
  - reflexivity.
  - reflexivity.
  - intros k p Hk Hne.
    apply sample_db_profiles in Hk as [[-> ->] | [[-> ->] | [-> ->]]]; done.
  - exists row. split; [exact Hread | exact Hspend].
Defined.

(** A limit of 33.335 is read back as 33.34. *)
Example saved_limit_is_rounded :
  max_spend <$> profile_of (Profile_save (Some 1%positive)
                              (sample_profile 1 "ann" (33335 # 1000))
                              (sample_db 100 ∅)).1 1
    = Some (1667 # 50)%Q.
Proof. vm_compute. reflexivity. Qed.

(** ** The receivers of [post_save] *)

(** X17: in a database as the table keeps it (one profile per user, no two
    profiles of one nickname, amounts at two places), [save_user_profile]
    for a user instance that holds no profile object of its own changes
    nothing and raises nothing: a user without a profile is skipped, and the
    stored profile of a user is written back as it is. *)
Theorem save_user_profile_unchanged (db : DB) (instance : positive) :
  unique_nicknames db →
  one_profile_per_user db →
  rows_as_written db →
  save_user_profile instance None db = (db, Ok tt).
Proof.
  intros Huniq Hone Hrows. unfold save_user_profile.
  destruct (profile_entry_of db instance) as [[k p] |] eqn:Hentry; simpl; [| done].
  apply profile_entry_of_Some in Hentry as [Hk _].
  assert (Hclean : Profile_clean db (Some k) p = Ok tt).
  { apply Profile_clean_Ok. intros k' p' Hk' Hne Hnick. apply Hne. f_equal.
    by apply (Huniq k' k p' p). }
  rewrite (Profile_save_written db (Some k) p Hclean).
  - by rewrite (Hrows k p Hk), set_profiles_id.
  - intros k' p' Hk' Hne Hu. apply Hne. by apply (Hone k' k p' p).
Qed.

Lemma save_user_profile_unchanged_witness :
  save_user_profile 1 None (sample_db 100 ∅) = (sample_db 100 ∅, Ok tt).
Proof.
  apply (save_user_profile_unchanged (sample_db 100 ∅) 1).
  - apply sample_db_unique_nicknames.
  - apply sample_db_one_profile_per_user.
  - intros k p Hk.
    apply sample_db_profiles in Hk as [[-> ->] | [[-> ->] | [-> ->]]];
      vm_compute; reflexivity.
Defined.

Lemma to_row_default_profile (instance : positive) :
  to_row (default_profile instance) = default_profile instance.
Proof.
  unfold to_row, default_profile. simpl.
  assert (H : quantize 100 2 = 100%Q) by (vm_compute; reflexivity).
  by rewrite H.
Qed.

Lemma create_user_profile_new db instance :
  profile_of db instance = None →
  (∀ k p, profiles db !! k = Some p → nickname p ≠ "") →
  create_user_profile instance true db =
    (set_profiles (<[fresh (dom (profiles db)) := default_profile instance]>) db, Ok tt).
Proof.
  intros Hnone Hfree.
  assert (Hclean : Profile_clean db None (default_profile instance) = Ok tt).
  { apply Profile_clean_Ok. intros k p Hk _. by apply (Hfree k p). }
  unfold create_user_profile. rewrite Hnone.
  rewrite (Profile_save_written db None (default_profile instance) Hclean).
  - by rewrite to_row_default_profile.
  - intros k' p Hk' _. by apply (proj1 (profile_of_None db instance) Hnone k' p).
Qed.

(** X18: [create_user_profile] gives a created user without a profile the
    default profile, with limits of 100 and an empty nickname, when no
    stored profile has the empty nickname; the handlers then read that
    profile for the user. It does nothing for a user that was not created
    or that has a profile. *)
Theorem create_user_profile_default (db : DB) (instance : positive) :
  (profile_of db instance = None →
   (∀ k p, profiles db !! k = Some p → nickname p ≠ "") →
   let out := create_user_profile instance true db in
   out.2 = Ok tt ∧
   profile_of out.1 instance = Some (default_profile instance) ∧
   ∀ k p, profiles db !! k = Some p → profiles out.1 !! k = Some p) ∧
  (is_Some (profile_of db instance) →
   create_user_profile instance true db = (db, Ok tt)) ∧
  create_user_profile instance false db = (db, Ok tt).
Proof.
  split; [| split; [| done]].
  - intros Hnone Hfree out.
    assert (Hout : out = (set_profiles (<[fresh (dom (profiles db))
                                          := default_profile instance]>) db, Ok tt)).
    { subst out. by apply create_user_profile_new. }
    rewrite Hout. simpl. clear Hout out.
    assert (Hfresh : profiles db !! fresh (dom (profiles db)) = None).
    { apply not_elem_of_dom, is_fresh. }
    split; [done |]. split.
    + set (db' := set_profiles _ db).
      destruct (profile_of db' instance) as [p |] eqn:Hp.
      * apply profile_of_Some in Hp as (k & Hk & Hu). simpl in Hk.
        rewrite lookup_insert in Hk.
        destruct (decide (fresh (dom (profiles db)) = k)); [congruence |].
        exfalso. by apply (proj1 (profile_of_None db instance) Hnone k p).
      * exfalso.
        apply (proj1 (profile_of_None db' instance) Hp (fresh (dom (profiles db)))
                 (default_profile instance)); [apply lookup_insert_eq | done].
    + intros k p Hk. rewrite lookup_insert_ne; [done |]. intros <-. congruence.
  - intros [p Hp]. unfold create_user_profile. by rewrite Hp.
Qed.

Lemma create_user_profile_default_witness :
  profile_of (create_user_profile 4 true (sample_db 100 ∅)).1 4 = Some (default_profile 4) ∧
  create_user_profile 1 true (sample_db 100 ∅) = (sample_db 100 ∅, Ok tt).
Proof.
  split.
  - refine (proj1 (proj2 (proj1 (create_user_profile_default (sample_db 100 ∅) 4) _ _))).
    + vm_compute. reflexivity.
    + apply sample_db_no_empty_nickname.
  - refine (proj1 (proj2 (create_user_profile_default (sample_db 100 ∅) 1)) _).
    exists (sample_profile 1 "ann" 50). vm_compute. reflexivity.
Defined.

(** X19: the default nickname is the empty one, so the profile of a second
    created user cannot be saved while the first has not chosen a nickname:
    after [create_user_profile] made the profile of one user, it raises a
    validation error for any other created user, and stores nothing. *)
Theorem create_user_profile_second_user_raises (db : DB) (first second : positive) :
  profile_of db first = None →
  profile_of db second = None →
  first ≠ second →
  (∀ k p, profiles db !! k = Some p → nickname p ≠ "") →
  let db1 := (create_user_profile first true db).1 in
  create_user_profile second true db1 = (db1, Raise ValidationError).
Proof.
  intros Hfirst Hsecond Hne Hfree db1.
  assert (Hdb1 : db1 = set_profiles (<[fresh (dom (profiles db))
                                        := default_profile first]>) db).
  { subst db1. by rewrite create_user_profile_new. }
  assert (Hnone : profile_of db1 second = None).
  { apply profile_of_None. intros k p. rewrite Hdb1. simpl. rewrite lookup_insert.
    destruct (decide (fresh (dom (profiles db)) = k)).
    - intros [= <-]. done.
    - by apply (proj1 (profile_of_None db second) Hsecond). }
  assert (Hraise : Profile_clean db1 None (default_profile second) = Raise ValidationError).
  { destruct (Profile_clean_cases db1 None (default_profile second)) as [Hok | Hr]; [| done].
    exfalso.
    apply (proj1 (Profile_clean_Ok db1 None (default_profile second)) Hok
             (fresh (dom (profiles db))) (default_profile first)); [| done | done].
    rewrite Hdb1. apply lookup_insert_eq. }
  unfold create_user_profile, Profile_save. by rewrite Hnone, Hraise.
Qed.

Lemma create_user_profile_second_user_raises_witness :
  create_user_profile 5 true (create_user_profile 4 true (sample_db 100 ∅)).1
    = ((create_user_profile 4 true (sample_db 100 ∅)).1, Raise ValidationError).
Proof.
  apply (create_user_profile_second_user_raises (sample_db 100 ∅) 4 5).
  - vm_compute. reflexivity.
  - vm_compute. reflexivity.
  - discriminate.
  - apply sample_db_no_empty_nickname.
Defined.

(** ** The group page *)

(** X20: a POST with a valid comment and no comment to edit stores one new
    comment, of the requesting user in the group of the URL, under a key
    that was free, and leaves every stored comment as it was. *)
Theorem group_detail_adds_comment
    (db : DB) (request : Request) (u group_id : positive) (g : Group)
    (edit : option N) (text : string) :
  user request = Some u →
  groups db !! group_id = Some g →
  edit = None ∨ edit = Some 0%N →
  method request = POST →
  post_comment request = Some text →
  let out := group_detail request group_id edit db in
  out.1.2 = [] ∧ out.2 = Ok (redirect_group_detail group_id) ∧
  ∃ k, comments db !! k = None ∧
       comments out.1.1 !! k = Some (mkComment u group_id text) ∧
       ∀ k', k' ≠ k → comments out.1.1 !! k' = comments db !! k'.
Proof.
  intros Hu Hg Hedit Hm Hc out.
  assert (Hout : out = (set_comments (<[fresh (dom (comments db))
                                        := mkComment u group_id text]>) db,
                        [], Ok (redirect_group_detail group_id))).
  { subst out. unfold group_detail, group_detail_form, Comment_save. unfold_monad.
    rewrite Hu, Hg. simpl. destruct Hedit as [-> | ->]; by rewrite Hm, Hc. }
  rewrite Hout. simpl. split; [done |]. split; [done |].
  exists (fresh (dom (comments db))).
  split; [apply not_elem_of_dom, is_fresh |].
  split; [apply lookup_insert_eq |].
  intros k' Hk'. by apply lookup_insert_ne.
Qed.

Lemma group_detail_adds_comment_witness :
  (group_detail (mkRequest (Some 2%positive) POST None missing missing (Some "hi")) 1
     None (sample_db 100 ∅)).2 = Ok (redirect_group_detail 1).
Proof.
  apply (group_detail_adds_comment (sample_db 100 ∅)
           (mkRequest (Some 2%positive) POST None missing missing (Some "hi"))
           2 1 (mkGroup "trip" 1) None "hi"); try reflexivity.
  by left.
Defined.

(** X21: a POST of the author with a valid comment replaces the comment that
    is edited: it keeps its key and its author, takes the new text, and is
    attached to the group of the URL whatever group it belonged to; every
    other comment is left as it was. *)
Theorem group_detail_author_edit
    (db : DB) (request : Request) (u group_id comment_id : positive) (g : Group)
    (c : Comment) (text : string) :
  user request = Some u →
  groups db !! group_id = Some g →
  comments db !! comment_id = Some c →
  comment_user c = u →
  method request = POST →
  post_comment request = Some text →
  let out := group_detail request group_id (Some (Npos comment_id)) db in
  out.1.2 = [] ∧ out.2 = Ok (redirect_group_detail group_id) ∧
  comments out.1.1 !! comment_id = Some (mkComment (comment_user c) group_id text) ∧
  ∀ k', k' ≠ comment_id → comments out.1.1 !! k' = comments db !! k'.
Proof.
  intros Hu Hg Hc Hauthor Hm Htext out.
  assert (Hout : out = (set_comments (<[comment_id := mkComment u group_id text]>) db,
                        [], Ok (redirect_group_detail group_id))).
  { subst out. unfold group_detail, group_detail_form, Comment_save. unfold_monad.
    rewrite Hu, Hg. simpl. rewrite Hc. simpl.
    destruct (decide (comment_user c ≠ u)); [done |]. by rewrite Hm, Htext. }
  rewrite Hout. simpl. split; [done |]. split; [done |].
  split; [by rewrite lookup_insert_eq, Hauthor |].
  intros k' Hk'. by apply lookup_insert_ne.
Qed.

Lemma group_detail_author_edit_witness :
  comments (group_detail (mkRequest (Some 1%positive) POST None missing missing
                            (Some "edited")) 1 (Some 1%N) (sample_db 100 ∅)).1.1
    !! 1%positive = Some (mkComment 1 1 "edited").
Proof.
  apply (group_detail_author_edit (sample_db 100 ∅)
           (mkRequest (Some 1%positive) POST None missing missing (Some "edited"))
           1 1 1 (mkGroup "trip" 1) (mkComment 1 1 "hello") "edited"); reflexivity.
Defined.

Lemma event_share_info_with_profile db u p (evs : list (positive * Event)) :
  profile_of db u = Some p →
  event_share_info db u evs =
    Ok ((λ ke, (ke.1, mkShareInfo (calculate_share db ke.2)
                        (Qle_bool (calculate_share db ke.2) (max_spend p))
                        (status ke.2)
                        (bool_decide (u ∈ members_of (event_members db) ke.1)))) <$> evs).
Proof.
  intros Hp. induction evs as [| [k e] evs IH]; simpl; [done |].
  by rewrite Hp, IH.
Qed.

Lemma elem_of_group_events db group_id k e :
  (k, e) ∈ group_events db group_id ↔ events db !! k = Some e ∧ group e = group_id.
Proof.
  unfold group_events. by rewrite elem_of_map_to_list, map_lookup_filter_Some.
Qed.

Lemma join_event_too_low_run db request u group_id event_id g e p :
  user request = Some u →
  groups db !! group_id = Some g →
  events db !! event_id = Some e →
  group e = group_id →
  profile_of db u = Some p →
  Qlt_bool (max_spend p) (calculate_share db e) = true →
  join_event request group_id event_id db =
    (db, [max_spend_too_low (max_spend p)], Ok (redirect_group_detail group_id)).
Proof.
  intros Hu Hg He Hge Hp Hlt.
  unfold join_event. unfold_monad. rewrite Hu, Hg, He. simpl.
  destruct (decide (group e = group_id)); [| done]. simpl.
  rewrite Hp. simpl. by rewrite Hlt.
Qed.

(** X22: a GET of the group page by a user with a profile changes nothing
    and lists exactly the events of the group, each with its share and its
    status. What the page shows foretells [join_event] by the same user: an
    event shown as not eligible is refused for the low limit, one shown as
    eligible and joined is answered with "already joined", and one shown as
    eligible and not joined is joined. *)
Theorem group_page_foretells_join
    (db : DB) (request request' : Request) (u group_id : positive) (g : Group)
    (p : Profile) :
  user request = Some u →
  user request' = Some u →
  groups db !! group_id = Some g →
  profile_of db u = Some p →
  method request = GET →
  ∃ infos,
    group_detail request group_id None db =
      (db, [], Ok (render_group_detail group_id None infos)) ∧
    (∀ k e, events db !! k = Some e → group e = group_id → ∃ info, (k, info) ∈ infos) ∧
    (∀ k info, (k, info) ∈ infos →
       ∃ e, events db !! k = Some e ∧ group e = group_id ∧
            info_share info = calculate_share db e ∧
            info_status info = status e ∧
            (info_eligible info = false →
               join_event request' group_id k db =
                 (db, [max_spend_too_low (max_spend p)],
                  Ok (redirect_group_detail group_id))) ∧
            (info_eligible info = true → info_joined info = true →
               join_event request' group_id k db =
                 (db, [already_joined], Ok (redirect_group_detail group_id))) ∧
            (info_eligible info = true → info_joined info = false →
               (join_event request' group_id k db).1.2 = [joined_event (name e)] ∧
               u ∈ members_of (event_members (join_event request' group_id k db).1.1) k)).
Proof.
  intros Hu Hu' Hg Hp Hm. eexists. split; [| split].
  - unfold group_detail, group_detail_form, group_detail_render. unfold_monad.
    rewrite Hu, Hg. simpl. rewrite Hm.
    by rewrite (event_share_info_with_profile db u p).
  - intros k e He Hge. eexists. apply list_elem_of_fmap.
    exists (k, e). split; [done |]. by apply elem_of_group_events.
  - intros k info Hin. apply list_elem_of_fmap in Hin as ([k0 e] & Heq & Hin).
    simpl in Heq. injection Heq as <- ->.
    apply elem_of_group_events in Hin as [He Hge].
    exists e. simpl. do 4 (split; [done |]).
    split; [| split].
    + intros Hel. apply (join_event_too_low_run db request' u group_id k g e p); try done.
      by rewrite Qlt_bool_negb_Qle_bool, Hel.
    + intros Hel Hj. apply bool_decide_eq_true in Hj.
      apply (join_event_already_joined_run db request' u group_id k g e p); try done.
      by apply Qle_bool_iff.
    + intros Hel Hj. apply bool_decide_eq_false in Hj. apply Qle_bool_iff in Hel.
      rewrite (join_event_run db request' u group_id k g e p) by done.
      destruct (check_status db e).1; simpl;
        (split; [done |]); rewrite members_of_insert, decide_True by done;
        apply elem_of_union_r; by apply elem_of_singleton.
Qed.

Lemma group_page_foretells_join_witness :
  ∃ infos,
    group_detail (sample_request 1 GET) 1 None (sample_db 300 ∅) =
      (sample_db 300 ∅, [], Ok (render_group_detail 1 None infos)) ∧
    (∀ k e, events (sample_db 300 ∅) !! k = Some e → group e = 1%positive →
       ∃ info, (k, info) ∈ infos).
Proof.
  destruct (group_page_foretells_join (sample_db 300 ∅) (sample_request 1 GET)
              (sample_request 1 POST) 1 1 (mkGroup "trip" 1) (sample_profile 1 "ann" 50)
              eq_refl eq_refl eq_refl eq_refl eq_refl) as (infos & Hrun & Hall & _).
  exists infos. split; [exact Hrun | exact Hall].
Defined.

(** X23: when [check_status] returns true for an event, no member of the
    event's group is refused by [join_event] for a low limit: the member's
    request is answered with a redirect, and the member belongs to the event
    afterwards. *)
Theorem active_event_admits_group_members
    (db : DB) (request : Request) (u group_id event_id : positive) (g : Group) (e : Event) :
  user request = Some u →
  groups db !! group_id = Some g →
  events db !! event_id = Some e →
  group e = group_id →
  (check_status db e).1 = Ok true →
  u ∈ members_of (group_members db) group_id →
  let out := join_event request group_id event_id db in
  out.2 = Ok (redirect_group_detail group_id) ∧
  (out.1.2 = [joined_event (name e)] ∨ out.1.2 = [already_joined]) ∧
  u ∈ members_of (event_members out.1.1) event_id.
Proof.
  intros Hu Hg He Hge Htrue Hmember out. subst out.
  pose proof (proj1 (check_status_true db e) Htrue) as Hafford.
  destruct (Hafford u) as (p & Hp & Hle); [by rewrite Hge |].
  destruct (decide (u ∈ members_of (event_members db) event_id)) as [Hin | Hin].
  - rewrite (join_event_already_joined_run db request u group_id event_id g e p) by done.
    simpl. split; [done |]. split; [by right | done].
  - rewrite (join_event_run db request u group_id event_id g e p) by done.
    rewrite Htrue. simpl. split; [done |]. split; [by left |].
    rewrite members_of_insert, decide_True by done.
    apply elem_of_union_r. by apply elem_of_singleton.
Qed.

Lemma active_event_admits_group_members_witness :
  2%positive ∈ members_of (event_members
                             (join_event (sample_request 2 POST) 1 1 (sample_db 100 ∅)).1.1) 1.
Proof.
  apply (active_event_admits_group_members (sample_db 100 ∅) (sample_request 2 POST)
           2 1 1 (mkGroup "trip" 1) (sample_event 100)); reflexivity.
Defined.

(** ** Edge and composition *)

(** X24: for an event whose group has no members the share is 0 and
    [check_status] returns true and leaves the event with status "Active",
    whatever the total of the event; the other fields are as they were. *)
Theorem check_status_empty_group (db : DB) (e : Event) :
  members_of (group_members db) (group e) = ∅ →
  let out := check_status db e in
  calculate_share db e = 0%Q ∧
  out.1 = Ok true ∧
  status out.2 = "Active" ∧
  name out.2 = name e ∧ date out.2 = date e ∧
  total_spend out.2 = total_spend e ∧ group out.2 = group e.
Proof.
  intros Hempty out. subst out. unfold check_status, calculate_share. rewrite Hempty.
  rewrite size_empty, elements_empty. done.
Qed.

Lemma check_status_empty_group_witness :
  status (check_status (mkDB ∅ ∅ ∅ ∅ ∅ ∅) (sample_event 300)).2 = "Active".
Proof.
  apply (check_status_empty_group (mkDB ∅ ∅ ∅ ∅ ∅ ∅) (sample_event 300)).
  reflexivity.
Defined.

(** X25: the status that a join leaves is the one that the admin's
    [update_event_status] derives: after a join that passed the guards in a
    group all of whose members have a profile, the admin's request to update
    the status of the event leaves the database as it is. *)
Theorem update_after_join_changes_nothing
    (db : DB) (request request' : Request) (u group_id event_id : positive)
    (g : Group) (e : Event) (p : Profile) :
  user request = Some u →
  user request' = Some (admin g) →
  groups db !! group_id = Some g →
  events db !! event_id = Some e →
  group e = group_id →
  profile_of db u = Some p →
  (calculate_share db e <= max_spend p)%Q →
  u ∉ members_of (event_members db) event_id →
  (∀ m, m ∈ members_of (group_members db) group_id → is_Some (profile_of db m)) →
  let db1 := (join_event request group_id event_id db).1.1 in
  (update_event_status request' group_id event_id db1).1.1 = db1 ∧
  (update_event_status request' group_id event_id db1).2 = Ok (redirect_group_detail group_id).
Proof.
  intros Hu Hadmin Hg He Hge Hp Hle Hnot Hprofiles db1.
  destruct (check_status_returns db e) as [b Hb]; [by rewrite Hge |].
  pose proof (check_status_saved db e b Hb) as Hsaved.
  set (s := if b then "Active" else "Pending") in Hsaved.
  assert (Hdb1 : db1 = Event_save event_id (set_status s e) (members_add event_id u db)).
  { subst db1. rewrite (join_event_run db request u group_id event_id g e p) by done.
    by rewrite Hb, Hsaved. }
  assert (Hcover : all_can_cover db1 (calculate_share db1 (set_status s e))
                     (elements (members_of (group_members db1) group_id)) = Ok b).
  { rewrite Hdb1. simpl.
    rewrite (all_can_cover_ext db (Event_save event_id (set_status s e)
                                     (members_add event_id u db))) by done.
    rewrite (all_can_cover_check_status_loop db _ e). simpl.
    rewrite <- Hge, <- Hb. done. }
  rewrite (update_event_status_admin db1 request' group_id event_id g (set_status s e));
    [| done | by rewrite Hdb1 | rewrite Hdb1; apply lookup_insert_eq | done].
  rewrite Hcover.
  assert (Hagain : Event_save event_id (set_status s (set_status s e)) db1 = db1).
  { rewrite Hdb1. apply Event_save_twice. }
  subst s. destruct b; simpl; by rewrite Hagain.
Qed.

Lemma update_after_join_changes_nothing_witness :
  let db1 := (join_event (sample_request 2 POST) 1 1 (sample_db 100 ∅)).1.1 in
  (update_event_status (sample_request 1 POST) 1 1 db1).1.1 = db1.
Proof.
  apply (update_after_join_changes_nothing (sample_db 100 ∅) (sample_request 2 POST)
           (sample_request 1 POST) 2 1 1 (mkGroup "trip" 1) (sample_event 100)
           (sample_profile 2 "bob" 150)); try reflexivity.
  - vm_compute. discriminate.
  - vm_compute. discriminate.
  - intros m Hm. vm_compute in Hm.
    destruct m as [[] | [] |]; try discriminate Hm; vm_compute; eauto.
Defined.
